(** * A shallow embedding of three TFX units

    - [tfx/orchestration/tfx_runner.py]: the runner base class, its
      construction-time validation and its launcher lookup;
    - [tfx/tools/cli/container_builder/buildspec.py]: the load-or-generate
      helper for the container build description;
    - [tfx/examples/custom_components/hello_world/hello_component/component.py]:
      the constructor of the example component.

    Python exceptions are values of [exn]; a computation that may raise
    returns a [result].  Methods that touch the file system or the console
    thread an explicit state. *)

From Stdlib Require Import Ascii ZArith Lia.
From stdpp Require Import base option list strings pretty gmap sets.

Set Warnings "-register-all,-clear-no-such-hyp".

(** ** Python exceptions and results *)

Inductive exn : Type :=
| ValueError (msg : string)
| TypeError (msg : string)
| RuntimeError (msg : string)
| KeyError (key : string)
| IndexError (msg : string)
| AttributeError (msg : string)
| FileNotFoundError (path : string)
| PermissionError (path : string)
| YAMLError (msg : string).

Inductive result (A : Type) : Type :=
| Ok (a : A)
| Raise (e : exn).
Arguments Ok {A} a.
Arguments Raise {A} e.

#[global] Instance exn_eq_dec : EqDecision exn.
Proof. solve_decision. Defined.
#[global] Instance result_eq_dec {A} `{EqDecision A} : EqDecision (result A).
Proof. solve_decision. Defined.

#[global] Instance result_ret : MRet result := λ A a, Ok a.
#[global] Instance result_bind : MBind result := λ A B f m,
  match m with
  | Ok a => f a
  | Raise e => Raise e
  end.
#[global] Instance result_fmap : FMap result := λ A B f m,
  match m with
  | Ok a => Ok (f a)
  | Raise e => Raise e
  end.

(** [for x in xs: body] where [body] may [return] a value ([Some]) or fall
    through to the next iteration ([None]). *)
Fixpoint for_in {A R} (xs : list A) (body : A → result (option R))
  : result (option R) :=
  match xs with
  | [] => Ok None
  | x :: xs' =>
      r ← body x;
      match r with
      | Some v => Ok (Some v)
      | None => for_in xs' body
      end
  end.

(** A list comprehension [[f x for x in xs]] whose element expression may
    raise. *)
Fixpoint comprehension {A B} (f : A → result B) (xs : list A)
  : result (list B) :=
  match xs with
  | [] => Ok []
  | x :: xs' => y ← f x; ys ← comprehension f xs'; Ok (y :: ys)
  end.

(** ** The [%] operator on [str]

    Only the conversions the sources use are interpreted: [%s] takes the
    next argument and [%%] is a literal percent sign.  A right operand that
    is not a tuple counts as one argument. *)

Definition dquote : string := String (Ascii.ascii_of_nat 34) EmptyString.

Fixpoint py_format (fmt : string) (args : list string) : result string :=
  match fmt with
  | EmptyString =>
      match args with
      | [] => Ok EmptyString
      | _ :: _ =>
          Raise (TypeError
                   "not all arguments converted during string formatting")
      end
  | String c rest =>
      if Ascii.eqb c "%"%char then
        match rest with
        | EmptyString => Raise (ValueError "incomplete format")
        | String d rest' =>
            if Ascii.eqb d "s"%char then
              match args with
              | [] => Raise (TypeError "not enough arguments for format string")
              | a :: args' => r ← py_format rest' args'; Ok (a +:+ r)
              end
            else if Ascii.eqb d "%"%char then
              r ← py_format rest' args; Ok (String "%"%char r)
            else Raise (ValueError "unsupported format character")
        end
      else r ← py_format rest args; Ok (String c r)
  end.

(** ** Dictionaries in insertion order

    A [dict] is kept as the list of its items in insertion order, which is
    the order [items()] iterates in. *)

Section dict.
Context {K V : Type} `{EqDecision K}.

Fixpoint dict_get (k : K) (d : list (K * V)) : option V :=
  match d with
  | [] => None
  | (k', v) :: d' => if decide (k' = k) then Some v else dict_get k d'
  end.

(** [k in d] *)
Definition dict_contains (k : K) (d : list (K * V)) : bool :=
  bool_decide (is_Some (dict_get k d)).

(** [d[k]] *)
Definition dict_getitem (repr : K → string) (d : list (K * V)) (k : K)
  : result V :=
  match dict_get k d with
  | Some v => Ok v
  | None => Raise (KeyError (repr k))
  end.
End dict.

(** ** [tfx/orchestration/tfx_runner.py] *)

Module tfx_runner.
Section runner.
(** The executor specification of a component and the platform
    configurations are opaque to the runner; [py_type] is [type(cfg)],
    the concrete class of a configuration. *)
Context {ExecutorSpec PlatformConfig TypeId : Type}.
Context `{Countable TypeId}.
Context (py_type : PlatformConfig → TypeId).

(** A subclass of [BaseComponentLauncher] with its static method
    [can_launch(executor_spec, platform_config)]. *)
Record LauncherClass := {
  launcher_name : string;
  can_launch : ExecutorSpec → option PlatformConfig → bool
}.

(** What an entry of [SUPPORTED_LAUNCHER_CLASSES] may be. *)
Inductive pyobject :=
| LauncherSubclass (l : LauncherClass)
| OtherClass (name : string)
| NotAClass (repr : string).

(** [issubclass(cls, base_component_launcher.BaseComponentLauncher)] *)
Definition issubclass (cls : pyobject) : result bool :=
  match cls with
  | LauncherSubclass _ => Ok true
  | OtherClass _ => Ok false
  | NotAClass _ => Raise (TypeError "issubclass() arg 1 must be a class")
  end.

(** [cls.can_launch(executor_spec, platform_config=platform_config)] *)
Definition call_can_launch (cls : pyobject) (executor_spec : ExecutorSpec)
    (platform_config : option PlatformConfig) : result bool :=
  match cls with
  | LauncherSubclass l => Ok (can_launch l executor_spec platform_config)
  | OtherClass _ =>
      Raise (AttributeError "type object has no attribute 'can_launch'")
  | NotAClass _ =>
      Raise (AttributeError "object has no attribute 'can_launch'")
  end.

(** The attributes of a component the runner reads. *)
Record BaseComponent := {
  id : string;
  component_id : string;
  executor_spec : ExecutorSpec
}.

Record TfxRunner := {
  _supported_launcher_classes : option (list pyobject);
  _platform_configs : list (string * list PlatformConfig)
}.

Definition _validate_supported_launcher_classes (self : TfxRunner)
  : result unit :=
  match _supported_launcher_classes self with
  | None | Some [] =>
      Raise (ValueError "component_launcher_classes must not be None or empty.")
  | Some classes =>
      flags ← comprehension (λ cls, negb <$> issubclass cls) classes;
      if existsb (λ b : bool, b) flags then
        Raise (TypeError ("Each item in supported_launcher_classes must be type of "
                          +:+ "base_component_launcher.BaseComponentLauncher."))
      else Ok ()
  end.

Definition _validate_platform_configs (self : TfxRunner) : result unit :=
  _ ← for_in (R := Empty_set) (_platform_configs self)
    (λ '(component_id, platform_configs),
      if String.eqb component_id "" then
        Raise (ValueError "component id cannot be empty in platform_configs.")
      else
        let platform_config_types : gset TypeId :=
          list_to_set (py_type <$> platform_configs) in
        if size platform_config_types <? length platform_configs then
          msg ← py_format
            ("Component " +:+ dquote +:+ "%s" +:+ dquote
             +:+ " has multiple platfrom configs with the same type.")
            [component_id];
          Raise (ValueError msg)
        else Ok None);
  Ok ().

Definition __init__ (SUPPORTED_LAUNCHER_CLASSES : option (list pyobject))
    (platform_configs : option (list (string * list PlatformConfig)))
  : result TfxRunner :=
  let self := {|
    _supported_launcher_classes := SUPPORTED_LAUNCHER_CLASSES;
    _platform_configs := default [] platform_configs
  |} in
  _ ← _validate_supported_launcher_classes self;
  _ ← _validate_platform_configs self;
  Ok self.

Definition find_component_launch_info (self : TfxRunner)
    (component : BaseComponent)
  : result (pyobject * option PlatformConfig) :=
  platform_configs ←
    (if dict_contains (id component) (_platform_configs self) then
       registered ← dict_getitem (λ k, k) (_platform_configs self) (id component);
       Ok ((Some <$> registered) ++ [None])
     else Ok [None]);
  found ← for_in platform_configs (λ platform_config,
    match _supported_launcher_classes self with
    | None => Raise (TypeError "'NoneType' object is not iterable")
    | Some classes =>
        for_in classes (λ component_launcher_class,
          capable ← call_can_launch component_launcher_class
                      (executor_spec component) platform_config;
          if capable : bool then
            Ok (Some (component_launcher_class, platform_config))
          else Ok None)
    end);
  match found with
  | Some launch_info => Ok launch_info
  | None =>
      msg ← py_format
        ("No launcher can launch component " +:+ dquote +:+ "%s" +:+ dquote +:+ ".")
        [component_id component];
      Raise (RuntimeError msg)
  end.

(** *** The lookup in the words of the specification

    The candidate platform configs are the configs registered for the
    component's id, in declaration order, followed by the no-config
    sentinel; the candidate pairs list, for each candidate config in that
    order, the launcher classes in preference order. *)

Definition candidate_platform_configs (self : TfxRunner)
    (component : BaseComponent) : list (option PlatformConfig) :=
  (Some <$> default [] (dict_get (id component) (_platform_configs self)))
  ++ [None].

Definition launch_candidates (self : TfxRunner) (component : BaseComponent)
  : list (pyobject * option PlatformConfig) :=
  platform_config ← candidate_platform_configs self component;
  cls ← default [] (_supported_launcher_classes self);
  [(cls, platform_config)].

(** The launcher of the pair reports that it can launch the component's
    executor under the config of the pair. *)
Definition capable (component : BaseComponent)
    (info : pyobject * option PlatformConfig) : Prop :=
  call_can_launch info.1 (executor_spec component) info.2 = Ok true.

#[global] Instance capable_dec component info : Decision (capable component info).
Proof. unfold capable. apply _. Defined.

Definition first_capable (self : TfxRunner) (component : BaseComponent)
  : option (pyobject * option PlatformConfig) :=
  snd <$> list_find (capable component) (launch_candidates self component).

(** The entry satisfies the launcher interface. *)
Definition is_launcher (cls : pyobject) : Prop := issubclass cls = Ok true.

#[global] Instance is_launcher_dec cls : Decision (is_launcher cls).
Proof. unfold is_launcher. apply _. Defined.

Definition no_launcher_message (component : BaseComponent) : string :=
  "No launcher can launch component " +:+ dquote
  +:+ component_id component +:+ dquote +:+ ".".

(** Some config attached to [component_id] shares its concrete type with
    another config attached to the same id. *)
Definition same_type_twice (platform_configs : list PlatformConfig) : Prop :=
  ∃ i j a b, i ≠ j ∧ platform_configs !! i = Some a
             ∧ platform_configs !! j = Some b ∧ py_type a = py_type b.

Definition bad_platform_configs
    (M : list (string * list PlatformConfig)) : Prop :=
  ∃ component_id platform_configs,
    (component_id, platform_configs) ∈ M
    ∧ (component_id = "" ∨ same_type_twice platform_configs).

End runner.
End tfx_runner.

(** ** [tfx/tools/cli/container_builder/buildspec.py] *)

Module buildspec.

(** *** Python values

    The values [yaml.safe_load] builds: scalars, lists and dictionaries
    (floats are left out; dictionary keys are strings or integers). *)

Inductive pykey :=
| KStr (s : string)
| KInt (z : Z).

Inductive pyvalue :=
| PyNone
| PyBool (b : bool)
| PyInt (z : Z)
| PyStr (s : string)
| PyList (items : list pyvalue)
| PyDict (items : list (pykey * pyvalue)).

#[global] Instance pykey_eq_dec : EqDecision pykey.
Proof. solve_decision. Defined.

Definition pykey_repr (k : pykey) : string :=
  match k with
  | KStr s => "'" +:+ s +:+ "'"
  | KInt z => pretty z
  end.

(** A sequence index, counted from the end when negative. *)
Definition seq_index (size : nat) (z : Z) : option nat :=
  if decide (0 ≤ z < Z.of_nat size)%Z then Some (Z.to_nat z)
  else if decide (- Z.of_nat size ≤ z < 0)%Z then
    Some (Z.to_nat (Z.of_nat size + z))
  else None.

(** [type(v).__name__] *)
Definition type_name (v : pyvalue) : string :=
  match v with
  | PyNone => "NoneType"
  | PyBool _ => "bool"
  | PyInt _ => "int"
  | PyStr _ => "str"
  | PyList _ => "list"
  | PyDict _ => "dict"
  end.

(** [v[k]] *)
Definition getitem (v : pyvalue) (k : pykey) : result pyvalue :=
  match v with
  | PyDict items => dict_getitem pykey_repr items k
  | PyList items =>
      match k with
      | KInt z =>
          match seq_index (length items) z ≫= (items !!.) with
          | Some x => Ok x
          | None => Raise (IndexError "list index out of range")
          end
      | KStr _ =>
          Raise (TypeError "list indices must be integers or slices, not str")
      end
  | PyStr s =>
      match k with
      | KInt z =>
          match seq_index (String.length s) z ≫= (λ i, String.get i s) with
          | Some c => Ok (PyStr (String c EmptyString))
          | None => Raise (IndexError "string index out of range")
          end
      | KStr _ => Raise (TypeError "string indices must be integers")
      end
  | PyNone | PyBool _ | PyInt _ =>
      Raise (TypeError ("'" +:+ type_name v +:+ "' object is not subscriptable"))
  end.

(** [len(v)] *)
Definition len (v : pyvalue) : result nat :=
  match v with
  | PyList items => Ok (length items)
  | PyDict items => Ok (length items)
  | PyStr s => Ok (String.length s)
  | PyNone | PyBool _ | PyInt _ =>
      Raise (TypeError ("object of type '" +:+ type_name v +:+ "' has no len()"))
  end.

(** [v[k1][k2]...], the chain of subscripts along [path] *)
Definition getpath (v : pyvalue) (path : list pykey) : result pyvalue :=
  foldl (λ r k, x ← r; getitem x k) (Ok v) path.

(** Equality of documents as Python compares values of one kind: scalars
    by value, lists entry by entry, dictionaries by their keys and the
    values under them, whatever the order of the items. *)
Fixpoint doc_eqb (a b : pyvalue) : bool :=
  match a, b with
  | PyNone, PyNone => true
  | PyBool x, PyBool y => bool_decide (x = y)
  | PyInt x, PyInt y => bool_decide (x = y)
  | PyStr x, PyStr y => bool_decide (x = y)
  | PyList xs, PyList ys =>
      (fix entries (xs ys : list pyvalue) : bool :=
         match xs, ys with
         | [], [] => true
         | x :: xs', y :: ys' => doc_eqb x y && entries xs' ys'
         | _, _ => false
         end) xs ys
  | PyDict xs, PyDict ys =>
      (length xs =? length ys)
      && (fix items (xs : list (pykey * pyvalue)) : bool :=
            match xs with
            | [] => true
            | (k, v) :: xs' =>
                match dict_get k ys with
                | Some v' => doc_eqb v v'
                | None => false
                end && items xs'
            end) xs
  | _, _ => false
  end.

(** A [Text] argument that may be [None]. *)
Definition py_text (t : option string) : pyvalue :=
  match t with
  | Some s => PyStr s
  | None => PyNone
  end.

Section buildspec.
(** [Content] is what a file holds, as the YAML library writes and reads
    it; [yaml_dump] and [yaml_safe_load] are [yaml.dump] and
    [yaml.safe_load].  [open_w_error path] is the error that
    [open(path, 'w')] raises where no file can be created at [path] (a
    [FileNotFoundError] for the empty path or a missing parent directory,
    a [PermissionError] in a directory that may not be written).  The four
    strings are the constants of
    [tfx.tools.cli.container_builder.commons]. *)
Context {Content : Type}.
Context (yaml_dump : pyvalue → Content).
Context (yaml_safe_load : Content → result pyvalue).
Context (open_w_error : string → option exn).
Context (BUILD_SPEC_FILENAME BUILD_CONTEXT DOCKERFILE_NAME
         SKAFFOLD_API_VERSION : string).

(** The files on disk, by path, and what [click.echo] has printed, oldest
    line first. *)
Record World := {
  files : gmap string Content;
  console : list string
}.

Record BuildSpec := {
  filename : string;
  build_context : pyvalue;
  target_image : option string;
  _buildspec : option pyvalue
}.

(** A method runs on the object and the world and leaves both behind,
    also when it raises. *)
Record State := {
  self : BuildSpec;
  world : World
}.

Definition M (A : Type) : Type := State → result A * State.

#[global] Instance M_ret : MRet M := λ A a st, (Ok a, st).
#[global] Instance M_bind : MBind M := λ A B f m st,
  match m st with
  | (Ok a, st') => f a st'
  | (Raise e, st') => (Raise e, st')
  end.

Definition raise {A} (e : exn) : M A := λ st, (Raise e, st).

Definition lift {A} (r : result A) : M A := λ st, (r, st).

Definition get_self : M BuildSpec := λ st, (Ok (self st), st).

Definition set_build_context (v : pyvalue) : M unit := λ st,
  (Ok (), {| self := {| filename := filename (self st);
                        build_context := v;
                        target_image := target_image (self st);
                        _buildspec := _buildspec (self st) |};
             world := world st |}).

Definition set__buildspec (v : pyvalue) : M unit := λ st,
  (Ok (), {| self := {| filename := filename (self st);
                        build_context := build_context (self st);
                        target_image := target_image (self st);
                        _buildspec := Some v |};
             world := world st |}).

(** [os.path.exists(path)] *)
Definition os_path_exists (path : string) : M bool := λ st,
  (Ok (bool_decide (is_Some (files (world st) !! path))), st).

(** [open(path, 'r')], read when the YAML library consumes it *)
Definition open_r (path : string) : M Content := λ st,
  match files (world st) !! path with
  | Some content => (Ok content, st)
  | None => (Raise (FileNotFoundError path), st)
  end.

(** [with open(path, 'w') as f: yaml.dump(doc, f)] *)
Definition open_w_dump (path : string) (doc : pyvalue) : M unit := λ st,
  match open_w_error path with
  | Some e => (Raise e, st)
  | None =>
      (Ok (), {| self := self st;
                 world := {| files := <[path := yaml_dump doc]> (files (world st));
                             console := console (world st) |} |})
  end.

(** [click.echo(message)] *)
Definition click_echo (message : string) : M unit := λ st,
  (Ok (), {| self := self st;
             world := {| files := files (world st);
                         console := console (world st) ++ [message] |} |}).

(** [click.echo(message, file)] with a [str] for [file], which has no
    [write] method. *)
Definition click_echo_to_str (message : string) (file : string) : M unit :=
  raise (AttributeError "'str' object has no attribute 'write'").

Definition _read_existing_build_spec : M unit :=
  self ← get_self;
  f ← open_r (filename self);
  message ← lift (py_format "Reading build spec from %s" [filename self]);
  click_echo message;;
  match target_image self with
  | Some target_image =>
      message ← lift (py_format
        ("Target image %s is not used. If the build spec is"
         +:+ "provicded, update the target image in the build spec"
         +:+ "file %s.") [target_image]);
      click_echo_to_str message (filename self)
  | None => mret ()
  end;;
  buildspec ← lift (yaml_safe_load f);
  set__buildspec buildspec;;
  build ← lift (getitem buildspec (KStr "build"));
  artifacts ← lift (getitem build (KStr "artifacts"));
  count ← lift (len artifacts);
  if negb (count =? 1) then
    raise (RuntimeError ("The build spec contains multiple artifacts however"
                         +:+ "only one is supported."))
  else
    artifact ← lift (getitem artifacts (KInt 0));
    workspace ← lift (getitem artifact (KStr "workspace"));
    set_build_context workspace.

Definition default_buildspec (self : BuildSpec) (dockerfile_name : string)
  : pyvalue :=
  PyDict [
    (KStr "apiVersion", PyStr SKAFFOLD_API_VERSION);
    (KStr "kind", PyStr "Config");
    (KStr "build", PyDict [
      (KStr "artifacts", PyList [
        PyDict [
          (KStr "image", py_text (target_image self));
          (KStr "workspace", build_context self);
          (KStr "docker", PyDict [
            (KStr "dockerfile", PyStr dockerfile_name)])]])])].

Definition _generate_default (dockerfile_name : string) : M unit :=
  self ← get_self;
  set__buildspec (default_buildspec self dockerfile_name);;
  open_w_dump (filename self) (default_buildspec self dockerfile_name).

Definition __init__ (filename : string) (target_image : option string)
    (build_context : string) (dockerfile_name : string) (w : World)
  : result unit * State :=
  (exists_ ← os_path_exists filename;
   if exists_ : bool then _read_existing_build_spec
   else
     match target_image with
     | None =>
         raise (ValueError ("BuildSpec: target_image is not given and there is no "
                            +:+ "existing build spec file."))
     | Some _ => _generate_default dockerfile_name
     end)
  {| self := {| filename := filename;
                build_context := PyStr build_context;
                target_image := target_image;
                _buildspec := None |};
     world := w |}.

(** [BuildSpec(filename=..., target_image=...)] with the defaults of the
    signature for the arguments left out. *)
Definition new (filename : option string) (target_image : option string)
    (build_context dockerfile_name : option string) : World → result unit * State :=
  __init__ (default BUILD_SPEC_FILENAME filename) target_image
           (default BUILD_CONTEXT build_context)
           (default DOCKERFILE_NAME dockerfile_name).

End buildspec.
End buildspec.

(** ** [tfx/examples/custom_components/hello_world/hello_component/component.py] *)

Module hello_component.

(** *** Artifacts, channels and component specs *)

(** The artifact classes of [tfx.types.standard_artifacts]. *)
Inductive artifact_type :=
| Examples
| OtherArtifact (type_name : string).

#[global] Instance artifact_type_eq_dec : EqDecision artifact_type.
Proof. solve_decision. Defined.

(** Modelled from the spec: [types.Artifact] is not among the sources.  An
    artifact handle has a declared artifact type and, for Examples, a
    named split.  Objects carry the identity they were allocated with. *)
Record Artifact := {
  artifact_oid : nat;
  artifact_class : artifact_type;
  split : string
}.

(** Modelled from the spec: [types.Channel] is not among the sources.  A
    channel is a typed reference to one or more artifacts of a declared
    artifact type; it carries no data, only the typed handle. *)
Record Channel := {
  channel_oid : nat;
  type : artifact_type;
  artifacts : list Artifact
}.

(** The next free object identity is the state of a computation that
    allocates. *)
Definition M (A : Type) : Type := nat → result A * nat.

#[global] Instance M_ret : MRet M := λ A a next, (Ok a, next).
#[global] Instance M_bind : MBind M := λ A B f m next,
  match m next with
  | (Ok a, next') => f a next'
  | (Raise e, next') => (Raise e, next')
  end.

Definition raise {A} (e : exn) : M A := λ next, (Raise e, next).
Definition lift {A} (r : result A) : M A := λ next, (r, next).
Definition allocate : M nat := λ next, (Ok next, S next).

(** [[f x for x in xs]] with an allocating element expression. *)
Fixpoint comprehensionM {A B} (f : A → M B) (xs : list A) : M (list B) :=
  match xs with
  | [] => mret []
  | x :: xs' => y ← f x; ys ← comprehensionM f xs'; mret (y :: ys)
  end.

(** Modelled from the spec: [standard_artifacts.Examples(split=...)] is
    not among the sources.  It mints a new artifact handle of type
    Examples for the named split. *)
Definition new_Examples (split : string) : M Artifact :=
  oid ← allocate;
  mret {| artifact_oid := oid; artifact_class := Examples; split := split |}.

(** Modelled from the spec: [channel_utils.as_channel] is not among the
    sources.  It mints the channel that refers to the given artifacts,
    one or more, under their artifact type. *)
Definition as_channel (source : list Artifact) : M Channel :=
  match source with
  | [] => raise (ValueError "Cannot convert empty artifact collection into Channel")
  | first_element :: _ =>
      oid ← allocate;
      mret {| channel_oid := oid;
              type := artifact_class first_element;
              artifacts := source |}
  end.

(** Modelled from the spec: [types.ComponentSpec] is not among the
    sources.  A component spec is the named bundle of parameters, input
    channels and output channels. *)
Record ComponentSpec := {
  parameters : gmap string string;
  inputs : gmap string Channel;
  outputs : gmap string Channel
}.

(** The class-level schema of [HelloComponentSpec]. *)
Definition PARAMETERS : list string := ["name"].
Definition INPUTS : list (string * artifact_type) := [("input_data", Examples)].
Definition OUTPUTS : list (string * artifact_type) := [("output_data", Examples)].

(** Modelled from the spec: the constructor of [types.ComponentSpec] is not
    among the sources.  Construction fails if a required parameter or
    channel is absent or mistyped. *)
Definition check_parameter (raw_args : gmap string string) (name : string)
  : result unit :=
  match raw_args !! name with
  | Some _ => Ok ()
  | None => Raise (ValueError ("Missing argument " +:+ name))
  end.

(** Modelled from the spec: the check of a declared channel, which fails
    if the channel is absent or of another artifact type. *)
Definition check_channel (raw_args : gmap string Channel)
    (declared : string * artifact_type) : result unit :=
  match raw_args !! declared.1 with
  | Some channel =>
      if decide (type channel = declared.2) then Ok ()
      else Raise (TypeError ("Argument " +:+ declared.1 +:+ " has the wrong type"))
  | None => Raise (ValueError ("Missing argument " +:+ declared.1))
  end.

(** An argument that is [None] counts as absent. *)
Definition raw {V} (name : string) (value : option V) : gmap string V :=
  match value with
  | Some v => {[ name := v ]}
  | None => ∅
  end.

(** Modelled from the spec: [HelloComponentSpec(input_data=...,
    output_data=..., name=...)] runs the inherited constructor on the
    schema above: every declared parameter, input and output is
    checked. *)
Definition HelloComponentSpec (input_data : option Channel)
    (output_data : option Channel) (name : option string)
  : result ComponentSpec :=
  let spec := {| parameters := raw "name" name;
                 inputs := raw "input_data" input_data;
                 outputs := raw "output_data" output_data |} in
  _ ← comprehension (check_parameter (parameters spec)) PARAMETERS;
  _ ← comprehension (check_channel (inputs spec)) INPUTS;
  _ ← comprehension (check_channel (outputs spec)) OUTPUTS;
  Ok spec.

(** Modelled from the spec: [base_component.BaseComponent.__init__] is not
    among the sources.  It registers the instance's spec with the base
    component so that an orchestrator can introspect it later. *)
Record HelloComponent := {
  spec : ComponentSpec
}.

(** Modelled from the spec: [super(HelloComponent, self).__init__(spec=spec)]. *)
Definition BaseComponent__init__ (spec : ComponentSpec) : M HelloComponent :=
  mret {| spec := spec |}.

(** *** The constructor *)

Definition __init__ (input_data output_data : option Channel)
    (name : option string) : M HelloComponent :=
  output_data ←
    match output_data with
    | Some channel => mret channel
    | None =>
        examples ← comprehensionM new_Examples ["train"; "eval"];
        as_channel examples
    end;
  spec ← lift (HelloComponentSpec input_data (Some output_data) name);
  BaseComponent__init__ spec.

End hello_component.

(** ** Example instances

    A runner with three launcher classes in the style of the in-process,
    Kubernetes and Docker launchers, and two components. *)

Module tfx_runner_example.
Import tfx_runner.

Inductive ExecutorSpec :=
| ExecutorClassSpec (executor_class : string)
| ExecutorContainerSpec (image : string).

Inductive BasePlatformConfig :=
| DockerComponentConfig (docker_server_url : string)
| KubernetesComponentConfig (service_account : string).

Definition config_type (cfg : BasePlatformConfig) : string :=
  match cfg with
  | DockerComponentConfig _ => "DockerComponentConfig"
  | KubernetesComponentConfig _ => "KubernetesComponentConfig"
  end.

Definition InProcessComponentLauncher
  : @LauncherClass ExecutorSpec BasePlatformConfig := {|
  launcher_name := "InProcessComponentLauncher";
  can_launch spec cfg :=
    match spec, cfg with
    | ExecutorClassSpec _, None => true
    | _, _ => false
    end
|}.

Definition KubernetesComponentLauncher
  : @LauncherClass ExecutorSpec BasePlatformConfig := {|
  launcher_name := "KubernetesComponentLauncher";
  can_launch spec cfg :=
    match spec, cfg with
    | ExecutorContainerSpec _, Some (KubernetesComponentConfig _) => true
    | _, _ => false
    end
|}.

Definition DockerComponentLauncher
  : @LauncherClass ExecutorSpec BasePlatformConfig := {|
  launcher_name := "DockerComponentLauncher";
  can_launch spec cfg :=
    match spec, cfg with
    | ExecutorContainerSpec _, (None | Some (DockerComponentConfig _)) => true
    | _, _ => false
    end
|}.

Definition launchers : list (@pyobject ExecutorSpec BasePlatformConfig) := [
  LauncherSubclass InProcessComponentLauncher;
  LauncherSubclass KubernetesComponentLauncher;
  LauncherSubclass DockerComponentLauncher
].

Definition trainer_configs : list BasePlatformConfig := [
  DockerComponentConfig "unix://var/run/docker.sock";
  KubernetesComponentConfig "pipeline-runner"
].

Definition configs : list (string * list BasePlatformConfig) :=
  [("Trainer", trainer_configs)].

Definition runner : @TfxRunner ExecutorSpec BasePlatformConfig := {|
  _supported_launcher_classes := Some launchers;
  _platform_configs := configs
|}.

Definition trainer : @BaseComponent ExecutorSpec := {|
  id := "Trainer";
  component_id := "Trainer";
  executor_spec := ExecutorClassSpec "trainer.executor.Executor"
|}.

Definition pusher : @BaseComponent ExecutorSpec := {|
  id := "Pusher";
  component_id := "Pusher";
  executor_spec := ExecutorContainerSpec "gcr.io/tfx/pusher"
|}.

(** A runner that only knows the Kubernetes launcher. *)
Definition kubernetes_runner : @TfxRunner ExecutorSpec BasePlatformConfig := {|
  _supported_launcher_classes :=
    Some [LauncherSubclass KubernetesComponentLauncher];
  _platform_configs := configs
|}.

End tfx_runner_example.

(** Build-spec files of one and of two artifacts, kept on a disk that
    stores the document of a file as it is. *)

Module buildspec_example.
Import buildspec.

Definition yaml_dump (doc : pyvalue) : pyvalue := doc.
Definition yaml_safe_load (content : pyvalue) : result pyvalue := Ok content.

(** No file can be created at the empty path or below the directory
    [missing_dir], which does not exist. *)
Definition open_w_error (path : string) : option exn :=
  if bool_decide (path = "") || String.prefix "missing_dir/" path
  then Some (FileNotFoundError path)
  else None.

(** A YAML library that writes the keys of a mapping in sorted order, as
    [yaml.dump] does unless told otherwise: the content of a file is the
    document its text denotes, every mapping in the order written. *)
Definition pykey_leb (a b : pykey) : bool :=
  match a, b with
  | KInt x, KInt y => (x <=? y)%Z
  | KInt _, KStr _ => true
  | KStr _, KInt _ => false
  | KStr x, KStr y => String.leb x y
  end.

Fixpoint insert_item (item : pykey * pyvalue)
    (items : list (pykey * pyvalue)) : list (pykey * pyvalue) :=
  match items with
  | [] => [item]
  | item' :: items' =>
      if pykey_leb item.1 item'.1 then item :: items
      else item' :: insert_item item items'
  end.

Fixpoint sort_keys (v : pyvalue) : pyvalue :=
  match v with
  | PyList entries =>
      PyList ((fix each (l : list pyvalue) : list pyvalue :=
                 match l with
                 | [] => []
                 | x :: l' => sort_keys x :: each l'
                 end) entries)
  | PyDict items =>
      PyDict ((fix each (l : list (pykey * pyvalue))
                 : list (pykey * pyvalue) :=
                 match l with
                 | [] => []
                 | (k, x) :: l' => insert_item (k, sort_keys x) (each l')
                 end) items)
  | _ => v
  end.

Definition yaml_dump_sorted (doc : pyvalue) : pyvalue := sort_keys doc.

Definition BUILD_SPEC_FILENAME : string := "build.yaml".
Definition BUILD_CONTEXT : string := ".".
Definition DOCKERFILE_NAME : string := "Dockerfile".
Definition SKAFFOLD_API_VERSION : string := "skaffold/v1beta13".

Definition artifact (image workspace : string) : pyvalue :=
  PyDict [(KStr "image", PyStr image);
          (KStr "workspace", PyStr workspace);
          (KStr "docker", PyDict [(KStr "dockerfile", PyStr "Dockerfile")])].

Definition build_spec (artifacts : list pyvalue) : pyvalue :=
  PyDict [(KStr "apiVersion", PyStr SKAFFOLD_API_VERSION);
          (KStr "kind", PyStr "Config");
          (KStr "build", PyDict [(KStr "artifacts", PyList artifacts)])].

Definition empty_disk : @World pyvalue := {| files := ∅; console := [] |}.

Definition one_artifact_disk : @World pyvalue := {|
  files := {[ "build.yaml" :=
                build_spec [artifact "gcr.io/project/image" "src"] ]};
  console := []
|}.

Definition two_artifact_disk : @World pyvalue := {|
  files := {[ "build.yaml" :=
                build_spec [artifact "gcr.io/project/image" "src";
                            artifact "gcr.io/project/other" "lib"] ]};
  console := []
|}.

Definition BuildSpec (filename : string) (target_image : option string)
    (build_context dockerfile_name : string) :=
  __init__ yaml_dump yaml_safe_load open_w_error SKAFFOLD_API_VERSION
           filename target_image build_context dockerfile_name.

End buildspec_example.

(** * Properties *)

(** ** Lists *)

Lemma snd_list_find_app {A} (P : A → Prop) `{∀ x, Decision (P x)}
    (l1 l2 : list A) :
  snd <$> list_find P (l1 ++ l2)
  = match snd <$> list_find P l1 with
    | Some x => Some x
    | None => snd <$> list_find P l2
    end.
Proof.
  destruct (list_find P l1) as [[i x]|] eqn:Hfind; simpl.
  - by rewrite (list_find_app_l _ _ _ _ _ Hfind).
  - rewrite list_find_app_r by done. by destruct (list_find P l2) as [[??]|].
Qed.

Lemma list_bind_singleton {A B} (f : A → B) (l : list A) :
  (x ← l; [f x]) = f <$> l.
Proof. induction l as [|x l IH]; csimpl; by f_equal. Qed.

(** ** The runner *)

Module tfx_runner_facts.
Import tfx_runner.

Section facts.
Context {ExecutorSpec PlatformConfig TypeId : Type}.
Context `{Countable TypeId}.
Context (py_type : PlatformConfig → TypeId).

Abbreviation Runner := (@TfxRunner ExecutorSpec PlatformConfig).
Abbreviation Component := (@BaseComponent ExecutorSpec).
Abbreviation Entry := (@pyobject ExecutorSpec PlatformConfig).
Abbreviation init := (__init__ (ExecutorSpec := ExecutorSpec) py_type).

Implicit Types (self : Runner) (component : Component) (cls : Entry).
Implicit Types (classes : list Entry) (cfg : option PlatformConfig).
Implicit Types (M : list (string * list PlatformConfig)).

(** *** Validation of the launcher classes *)

Lemma is_launcher_inv cls : is_launcher cls → ∃ l, cls = LauncherSubclass l.
Proof. destruct cls; unfold is_launcher; simpl; naive_solver. Qed.

Lemma flags_all_launchers classes :
  Forall is_launcher classes →
  comprehension (λ cls, negb <$> issubclass cls) classes
  = Ok (replicate (length classes) false).
Proof.
  induction 1 as [|cls classes Hcls _ IH]; [done|].
  simpl. rewrite Hcls. simpl. by rewrite IH.
Qed.

Lemma flags_some_other classes :
  ¬ Forall is_launcher classes →
  (∃ msg, comprehension (λ cls, negb <$> issubclass cls) classes
          = Raise (TypeError msg))
  ∨ (∃ flags, comprehension (λ cls, negb <$> issubclass cls) classes
              = Ok flags ∧ existsb (λ b : bool, b) flags = true).
Proof.
  induction classes as [|cls classes IH]; intros Hnot.
  { destruct Hnot. constructor. }
  simpl. destruct cls as [l|name|repr]; simpl.
  - destruct IH as [[msg ->]|(flags & -> & Hflags)]; simpl; eauto.
    intros Hall. apply Hnot. by constructor.
  - destruct (comprehension _ classes) as [flags|e] eqn:Hrest; simpl.
    + right. eauto.
    + clear IH Hnot. revert e Hrest.
      induction classes as [|cls classes IH]; intros e; [done|].
      simpl. destruct cls; simpl;
        destruct (comprehension _ classes); simpl; naive_solver.
  - left. eauto.
Qed.

Lemma existsb_replicate_false n :
  existsb (λ b : bool, b) (replicate n false) = false.
Proof. induction n; simpl; auto. Qed.

Lemma validate_classes_ok self :
  _validate_supported_launcher_classes self = Ok ()
  ↔ ∃ classes, _supported_launcher_classes self = Some classes
               ∧ classes ≠ [] ∧ Forall is_launcher classes.
Proof.
  unfold _validate_supported_launcher_classes.
  destruct (_supported_launcher_classes self) as [[|cls classes]|];
    [naive_solver | | naive_solver].
  destruct (decide (Forall is_launcher (cls :: classes))) as [Hall|Hnot].
  - rewrite flags_all_launchers by done. simpl.
    rewrite existsb_replicate_false. naive_solver.
  - destruct (flags_some_other _ Hnot) as [[msg ->]|(flags & -> & Hflags)];
      simpl; [|rewrite Hflags]; naive_solver.
Qed.

Lemma validate_classes_type_error self classes :
  _supported_launcher_classes self = Some classes →
  ¬ Forall is_launcher classes →
  ∃ msg, _validate_supported_launcher_classes self = Raise (TypeError msg).
Proof.
  intros Hclasses Hnot. unfold _validate_supported_launcher_classes.
  rewrite Hclasses. destruct classes as [|cls classes].
  { destruct Hnot. constructor. }
  destruct (flags_some_other _ Hnot) as [[msg ->]|(flags & -> & Hflags)];
    simpl; [|rewrite Hflags]; eauto.
Qed.

(** *** Validation of the platform configs *)

Lemma size_list_to_set_le (l : list TypeId) :
  size (list_to_set l : gset TypeId) ≤ length l.
Proof.
  induction l as [|x l IH].
  - by rewrite list_to_set_nil, size_empty.
  - rewrite list_to_set_cons, length_cons.
    rewrite size_union_alt, size_singleton.
    cut (size (list_to_set l ∖ {[x]} : gset TypeId) ≤ size (list_to_set l : gset TypeId));
      [lia|]. apply subseteq_size. set_solver.
Qed.

Lemma size_list_to_set_lt (l : list TypeId) :
  size (list_to_set l : gset TypeId) < length l ↔ ¬ NoDup l.
Proof.
  split.
  - intros Hlt Hnodup. rewrite size_list_to_set in Hlt by done. lia.
  - induction l as [|x l IH]; intros Hdup.
    { destruct Hdup. constructor. }
    rewrite list_to_set_cons, length_cons.
    destruct (decide (x ∈ l)) as [Hin|Hnotin].
    + replace ({[x]} ∪ list_to_set l : gset TypeId)
        with (list_to_set l : gset TypeId) by set_solver.
      pose proof (size_list_to_set_le l). lia.
    + rewrite size_union, size_singleton by set_solver.
      cut (size (list_to_set l : gset TypeId) < length l); [lia|].
      apply IH. intros Hnodup. apply Hdup. by constructor.
Qed.

Lemma same_type_twice_dup (platform_configs : list PlatformConfig) :
  same_type_twice py_type platform_configs
  ↔ ¬ NoDup (py_type <$> platform_configs).
Proof.
  rewrite NoDup_alt. split.
  - intros (i & j & a & b & Hij & Ha & Hb & Hab) Hinj.
    apply Hij, (Hinj i j (py_type a)); rewrite list_lookup_fmap.
    + by rewrite Ha.
    + by rewrite Hb, Hab.
  - intros Hnot.
    destruct (decide (NoDup (py_type <$> platform_configs))) as [Hnd|Hd].
    { destruct Hnot. by apply NoDup_alt. }
    clear Hnot. induction platform_configs as [|a l IH].
    { destruct Hd. constructor. }
    destruct (decide (py_type a ∈ py_type <$> l)) as [Hin|Hnotin].
    + apply list_elem_of_fmap in Hin as (b & Hab & Hb).
      apply list_elem_of_lookup in Hb as [j Hj].
      exists 0, (S j), a, b. by split_and!.
    + destruct IH as (i & j & x & y & Hij & Hx & Hy & Hxy).
      { intros Hnd. apply Hd. csimpl. by constructor. }
      exists (S i), (S j), x, y. split_and!; [lia|done..].
Qed.

Lemma multiple_configs_message (component_id : string) :
  ∃ msg,
    py_format ("Component " +:+ dquote +:+ "%s" +:+ dquote
               +:+ " has multiple platfrom configs with the same type.")
              [component_id] = Ok msg.
Proof. eexists. reflexivity. Qed.

Lemma validate_platform_configs_spec self :
  (bad_platform_configs py_type (_platform_configs self) →
   ∃ msg, _validate_platform_configs py_type self = Raise (ValueError msg))
  ∧ (¬ bad_platform_configs py_type (_platform_configs self) →
     _validate_platform_configs py_type self = Ok ()).
Proof.
  unfold _validate_platform_configs, bad_platform_configs.
  induction (_platform_configs self) as [|[k configs] M IH].
  { split; [|done]. intros (? & ? & Hin & _). by apply elem_of_nil in Hin. }
  cbn [for_in].
  destruct (String.eqb_spec k "") as [->|Hk].
  { simpl. split; [eauto|]. intros Hgood. destruct Hgood.
    exists "", configs. split; [left|by left]. }
  destruct (Nat.ltb_spec (size (list_to_set (py_type <$> configs) : gset TypeId))
              (length configs)) as [Hlt|Hge].
  { destruct (multiple_configs_message k) as [msg ->]. simpl.
    split; [eauto|]. intros Hgood. destruct Hgood.
    exists k, configs. split; [left|right].
    apply same_type_twice_dup, size_list_to_set_lt. by rewrite length_fmap. }
  assert (¬ same_type_twice py_type configs) as Hnodup.
  { rewrite same_type_twice_dup, <-size_list_to_set_lt, length_fmap. lia. }
  destruct IH as [IHbad IHgood]. simpl. split.
  - intros (k' & configs' & Hin & Hbad).
    apply elem_of_cons in Hin as [[= -> ->]|Hin]; [naive_solver|].
    destruct IHbad as [msg Hmsg]; [by eauto|].
    destruct (for_in M _) as [[[]|]|e]; simplify_eq/=; eauto.
  - intros Hgood.
    rewrite <-IHgood; [by destruct (for_in M _) as [[[]|]|e]|].
    intros (k' & configs' & Hin & Hbad). apply Hgood.
    exists k', configs'. split; [by right|done].
Qed.

(** *** Construction *)

Lemma init_ok_inv L platform_configs self :
  init L platform_configs = Ok self →
  self = {| _supported_launcher_classes := L;
            _platform_configs := default [] platform_configs |}
  ∧ (∃ classes, L = Some classes ∧ classes ≠ []
                ∧ Forall is_launcher classes)
  ∧ ¬ bad_platform_configs py_type (default [] platform_configs).
Proof.
  unfold __init__. set (self0 := {| _supported_launcher_classes := L |}).
  intros Hinit.
  destruct (_validate_supported_launcher_classes self0) as [[]|] eqn:Hclasses;
    [|done].
  destruct (_validate_platform_configs py_type self0) as [[]|] eqn:Hconfigs;
    [|done].
  simpl in Hinit. injection Hinit as <-. split_and!; [done|..].
  - by apply validate_classes_ok in Hclasses.
  - intros Hbad.
    destruct (proj1 (validate_platform_configs_spec self0) Hbad) as [msg Hmsg].
    by rewrite Hconfigs in Hmsg.
Qed.

Lemma init_ok classes platform_configs :
  classes ≠ [] → Forall is_launcher classes →
  ¬ bad_platform_configs py_type (default [] platform_configs) →
  init (Some classes) platform_configs
  = Ok {| _supported_launcher_classes := Some classes;
          _platform_configs := default [] platform_configs |}.
Proof.
  intros Hne Hall Hgood. unfold __init__.
  set (self0 := {| _supported_launcher_classes := Some classes |}).
  rewrite (proj2 (validate_classes_ok self0)) by eauto. simpl.
  by rewrite (proj2 (validate_platform_configs_spec self0)).
Qed.

(** *** The lookup *)

Lemma launcher_loop classes component cfg :
  Forall is_launcher classes →
  for_in classes (λ cls,
    capable ← call_can_launch cls (executor_spec component) cfg;
    if capable : bool then Ok (Some (cls, cfg)) else Ok None)
  = Ok (snd <$> list_find (capable component) ((λ cls, (cls, cfg)) <$> classes)).
Proof.
  induction 1 as [|cls classes Hcls _ IH]; [done|].
  apply is_launcher_inv in Hcls as [l ->]. cbn [for_in]. csimpl.
  case_decide as Hcapable.
  - injection Hcapable as Hcan. simpl in Hcan. by rewrite Hcan.
  - assert (can_launch l (executor_spec component) cfg = false) as ->.
    { apply not_true_is_false. intros Hcan. apply Hcapable.
      unfold capable. simpl. by rewrite Hcan. }
    simpl. rewrite IH. by destruct (list_find _ _) as [[??]|].
Qed.

Lemma config_loop classes component (cfgs : list (option PlatformConfig)) :
  Forall is_launcher classes →
  for_in cfgs (λ cfg,
    for_in classes (λ cls,
      capable ← call_can_launch cls (executor_spec component) cfg;
      if capable : bool then Ok (Some (cls, cfg)) else Ok None))
  = Ok (snd <$> list_find (capable component)
                  (cfg ← cfgs; cls ← classes; [(cls, cfg)])).
Proof.
  intros Hall. induction cfgs as [|cfg cfgs IH]; [done|].
  cbn [for_in]. rewrite launcher_loop by done. csimpl.
  rewrite snd_list_find_app, list_bind_singleton, IH.
  by destruct (snd <$> list_find _ ((λ cls, (cls, cfg)) <$> classes)).
Qed.

Lemma registered_configs self component :
  (if dict_contains (id component) (_platform_configs self) then
     registered ← dict_getitem (λ k, k) (_platform_configs self) (id component);
     Ok ((Some <$> registered) ++ [None])
   else Ok [None])
  = Ok (candidate_platform_configs self component).
Proof.
  unfold dict_contains, dict_getitem, candidate_platform_configs.
  destruct (dict_get _ _) as [registered|].
  - by rewrite bool_decide_eq_true_2 by eauto.
  - by rewrite bool_decide_eq_false_2 by (by intros [??]).
Qed.

Lemma no_launcher_format component :
  py_format
    ("No launcher can launch component " +:+ dquote +:+ "%s" +:+ dquote +:+ ".")
    [component_id component]
  = Ok (no_launcher_message component).
Proof. reflexivity. Qed.

Lemma find_component_launch_info_refines self component classes :
  _supported_launcher_classes self = Some classes →
  Forall is_launcher classes →
  find_component_launch_info self component
  = match first_capable self component with
    | Some launch_info => Ok launch_info
    | None => Raise (RuntimeError (no_launcher_message component))
    end.
Proof.
  intros Hclasses Hall. unfold find_component_launch_info.
  rewrite registered_configs, Hclasses. cbn [mbind result_bind].
  rewrite config_loop by done. cbn [mbind result_bind].
  unfold first_capable, launch_candidates. rewrite Hclasses. simpl default.
  destruct (snd <$> list_find _ _); [done|].
  by rewrite no_launcher_format.
Qed.

Lemma elem_of_launch_candidates self component cls cfg :
  (cls, cfg) ∈ launch_candidates self component
  ↔ cls ∈ default [] (_supported_launcher_classes self)
    ∧ cfg ∈ candidate_platform_configs self component.
Proof.
  unfold launch_candidates. rewrite list_elem_of_bind. split.
  - intros (cfg' & Hin & Hcfg).
    apply list_elem_of_bind in Hin as (cls' & Hin & Hcls).
    apply list_elem_of_singleton in Hin as [= -> ->]. done.
  - intros [Hcls Hcfg]. exists cfg. split; [|done].
    apply list_elem_of_bind. exists cls. split; [|done]. by left.
Qed.

Lemma first_capable_Some self component launch_info :
  first_capable self component = Some launch_info
  ↔ ∃ i, launch_candidates self component !! i = Some launch_info
         ∧ capable component launch_info
         ∧ ∀ j earlier, launch_candidates self component !! j = Some earlier →
                        j < i → ¬ capable component earlier.
Proof.
  unfold first_capable. rewrite fmap_Some. split.
  - intros ([i x] & Hfind & ->). exists i. simpl.
    by apply list_find_Some in Hfind.
  - intros (i & Hi). exists (i, launch_info). by rewrite list_find_Some.
Qed.

Lemma first_capable_None self component :
  first_capable self component = None
  ↔ ∀ cls cfg, cls ∈ default [] (_supported_launcher_classes self) →
               cfg ∈ candidate_platform_configs self component →
               ¬ capable component (cls, cfg).
Proof.
  unfold first_capable. rewrite fmap_None, list_find_None, Forall_forall.
  split.
  - intros Hall cls cfg Hcls Hcfg. apply Hall.
    by apply elem_of_launch_candidates.
  - intros Hall [cls cfg] Hin.
    apply elem_of_launch_candidates in Hin as [??]. by apply Hall.
Qed.

(** *** The claims about the runner *)

(** C1.  On a constructed runner, [find_component_launch_info] is the
    greedy first-match search of the specification: candidate platform
    configs are the configs registered for the component's id, in
    declaration order, followed by [None]; within each config the
    launcher classes are tried in preference order; the first pair whose
    launcher reports that it can launch the executor under the config is
    returned.  In particular, when only the third launcher class can
    launch, the third is returned, and when no launcher can launch under
    the registered configs [A] and [B] but one can without a config, the
    returned config is [None]. *)
Theorem find_component_launch_info_first_match
    L platform_configs self component :
  init L platform_configs = Ok self →
  find_component_launch_info self component
  = match first_capable self component with
    | Some launch_info => Ok launch_info
    | None => Raise (RuntimeError (no_launcher_message component))
    end
  ∧ (∀ launch_info,
       find_component_launch_info self component = Ok launch_info
       ↔ ∃ i, launch_candidates self component !! i = Some launch_info
              ∧ capable component launch_info
              ∧ ∀ j earlier,
                  launch_candidates self component !! j = Some earlier →
                  j < i → ¬ capable component earlier)
  ∧ (∀ classes third,
       L = Some classes → classes !! 2 = Some third →
       (∀ i cls cfg, classes !! i = Some cls → i ≠ 2 →
                     cfg ∈ candidate_platform_configs self component →
                     ¬ capable component (cls, cfg)) →
       (∃ cfg, cfg ∈ candidate_platform_configs self component
               ∧ capable component (third, cfg)) →
       ∃ cfg, find_component_launch_info self component = Ok (third, cfg))
  ∧ (∀ A B,
       dict_get (id component) (default [] platform_configs) = Some [A; B] →
       (∀ cls, cls ∈ default [] L →
               ¬ capable component (cls, Some A)
               ∧ ¬ capable component (cls, Some B)) →
       (∃ cls, cls ∈ default [] L ∧ capable component (cls, None)) →
       ∃ cls, find_component_launch_info self component = Ok (cls, None)).
Proof.
  intros Hinit.
  apply init_ok_inv in Hinit as (-> & (classes & -> & Hne & Hall) & Hgood).
  set (self := {| _supported_launcher_classes := Some classes |}).
  pose proof (find_component_launch_info_refines self component classes
                eq_refl Hall) as Hfind.
  split_and!; [done|..].
  - intros launch_info. rewrite Hfind, <-first_capable_Some.
    destruct (first_capable self component); naive_solver.
  - intros ? third [= <-] Hthird Honly (cfg & Hcfg & Hcapable).
    rewrite Hfind.
    destruct (first_capable self component) as [[cls cfg']|] eqn:Hfirst.
    + apply first_capable_Some in Hfirst as (i & Hi & Hcls & _).
      apply list_elem_of_lookup_2, elem_of_launch_candidates in Hi
        as [Hin Hcfg'].
      simpl in Hin. apply list_elem_of_lookup_1 in Hin as [k Hk].
      destruct (decide (k = 2)) as [->|Hk2].
      * exists cfg'. rewrite Hthird in Hk. by injection Hk as ->.
      * by destruct (Honly k cls cfg').
    + destruct (proj1 (first_capable_None self component) Hfirst third cfg);
        [by eapply list_elem_of_lookup_2|done..].
  - intros A B HAB Hnone (cls & Hcls & Hcapable). rewrite Hfind.
    destruct (first_capable self component) as [[cls' cfg']|] eqn:Hfirst.
    + apply first_capable_Some in Hfirst as (i & Hi & Hcls' & _).
      apply list_elem_of_lookup_2, elem_of_launch_candidates in Hi
        as [Hin Hcfg'].
      unfold candidate_platform_configs in Hcfg'. simpl in Hcfg'.
      rewrite HAB in Hcfg'. destruct (Hnone cls' Hin) as [HA HB].
      set_solver.
    + destruct (proj1 (first_capable_None self component) Hfirst cls None);
        [done| |done].
      unfold candidate_platform_configs. set_solver.
Qed.

(** C2.  On a constructed runner, [find_component_launch_info] raises
    exactly when no launcher class can launch the component's executor
    under any candidate platform config; what it raises is then a
    [RuntimeError] whose message quotes the component's
    [component_id]. *)
Theorem find_component_launch_info_raises
    L platform_configs self component :
  init L platform_configs = Ok self →
  ((∃ e, find_component_launch_info self component = Raise e)
   ↔ ∀ cls cfg, cls ∈ default [] (_supported_launcher_classes self) →
                cfg ∈ candidate_platform_configs self component →
                ¬ capable component (cls, cfg))
  ∧ (∀ e, find_component_launch_info self component = Raise e →
          e = RuntimeError ("No launcher can launch component " +:+ dquote
                            +:+ component_id component +:+ dquote +:+ ".")).
Proof.
  intros Hinit.
  apply init_ok_inv in Hinit as (-> & (classes & -> & Hne & Hall) & Hgood).
  set (self := {| _supported_launcher_classes := Some classes |}).
  rewrite (find_component_launch_info_refines self component classes
             eq_refl Hall).
  rewrite <-first_capable_None.
  destruct (first_capable self component); split; naive_solver.
Qed.

(** C3.  Construction fails with a [ValueError] when the class attribute
    [SUPPORTED_LAUNCHER_CLASSES] is [None] or empty, and with a
    [TypeError] when some entry of the list is not a subclass of
    [BaseComponentLauncher], whatever the platform configs are. *)
Theorem init_rejects_launcher_classes L platform_configs :
  (L = None ∨ L = Some [] →
   ∃ msg, init L platform_configs = Raise (ValueError msg))
  ∧ (∀ classes, L = Some classes →
                Exists (λ cls, ¬ is_launcher cls) classes →
                ∃ msg, init L platform_configs = Raise (TypeError msg)).
Proof.
  split.
  - intros [->| ->]; unfold __init__; simpl; eauto.
  - intros classes -> Hsome. unfold __init__.
    set (self0 := {| _supported_launcher_classes := Some classes |}).
    destruct (validate_classes_type_error self0 classes eq_refl)
      as [msg ->]; [|simpl; eauto].
    intros Hall. apply Exists_exists in Hsome as (cls & Hin & Hcls).
    by eapply Hcls, Forall_forall.
Qed.

(** C4, amended.  The validation of the platform configs raises a
    [ValueError] when some key of the map is the empty component id or
    when some component id has two configs of the same concrete type, and
    passes otherwise.  On a runner class whose launcher classes pass their
    validation, which runs first, this decides the construction: it fails
    with that [ValueError], or returns the runner. *)
Theorem init_validates_platform_configs L M :
  let self := {| _supported_launcher_classes := L; _platform_configs := M |} in
  ((bad_platform_configs py_type M →
    ∃ msg, _validate_platform_configs py_type self = Raise (ValueError msg))
   ∧ (¬ bad_platform_configs py_type M →
      _validate_platform_configs py_type self = Ok ()))
  ∧ (_validate_supported_launcher_classes self = Ok () →
     (bad_platform_configs py_type M →
      ∃ msg, init L (Some M) = Raise (ValueError msg))
     ∧ (¬ bad_platform_configs py_type M → init L (Some M) = Ok self)).
Proof.
  intros self. split; [apply (validate_platform_configs_spec self)|].
  intros Hclasses. unfold __init__.
  change (default [] (Some M)) with M. fold self.
  rewrite Hclasses. cbn [mbind result_bind]. split.
  - intros Hbad.
    destruct (proj1 (validate_platform_configs_spec self) Hbad) as [msg ->].
    simpl. eauto.
  - intros Hgood. by rewrite (proj2 (validate_platform_configs_spec self)).
Qed.

End facts.

Import tfx_runner_example.

Lemma find_component_launch_info_first_match_witness :
  __init__ config_type (Some launchers) (Some configs) = Ok runner
  ∧ (∃ cfg, find_component_launch_info runner pusher
            = Ok (LauncherSubclass DockerComponentLauncher, cfg))
  ∧ (∃ cls, find_component_launch_info runner trainer = Ok (cls, None)).
Proof.
  assert (__init__ config_type (Some launchers) (Some configs) = Ok runner)
    as Hinit by (vm_compute; reflexivity).
  split; [exact Hinit|]. split.
  - apply (proj1 (proj2 (proj2
      (find_component_launch_info_first_match config_type _ _ _ pusher Hinit)))
      launchers _ eq_refl eq_refl).
    + intros i cls cfg Hi Hne Hcfg Hcapable.
      apply list_elem_of_singleton in Hcfg as ->.
      destruct i as [|[|[|i]]]; [| |congruence|discriminate Hi];
        vm_compute in Hi; injection Hi as <-; vm_compute in Hcapable;
        discriminate Hcapable.
    + exists None. split; [apply list_elem_of_singleton|]; reflexivity.
  - apply (proj2 (proj2 (proj2
      (find_component_launch_info_first_match config_type _ _ _ trainer Hinit)))
      (DockerComponentConfig "unix://var/run/docker.sock")
      (KubernetesComponentConfig "pipeline-runner") eq_refl).
    + intros cls Hcls. simpl in Hcls.
      repeat (apply elem_of_cons in Hcls as [->|Hcls]);
        [split; intros Hcapable; vm_compute in Hcapable;
         discriminate Hcapable..|].
      exact (False_ind _ (proj1 (elem_of_nil _) Hcls)).
    + exists (LauncherSubclass InProcessComponentLauncher).
      split; [left|reflexivity].
Defined.

Lemma find_component_launch_info_raises_witness :
  __init__ config_type (Some [LauncherSubclass KubernetesComponentLauncher])
           (Some configs) = Ok kubernetes_runner
  ∧ ∃ e, find_component_launch_info kubernetes_runner trainer = Raise e.
Proof.
  assert (__init__ config_type
            (Some [LauncherSubclass KubernetesComponentLauncher])
            (Some configs) = Ok kubernetes_runner) as Hinit by (vm_compute; reflexivity).
  split; [exact Hinit|].
  apply (proj1 (find_component_launch_info_raises config_type _ _ _ trainer
                  Hinit)).
  intros cls cfg Hcls Hcfg Hcapable. simpl in Hcls.
  apply list_elem_of_singleton in Hcls as ->.
  destruct cfg as [[]|]; vm_compute in Hcapable; discriminate Hcapable.
Defined.

Lemma init_rejects_launcher_classes_witness :
  (∃ msg, __init__ (ExecutorSpec := ExecutorSpec) config_type (Some [])
            (Some configs) = Raise (ValueError msg))
  ∧ (∃ msg, __init__ config_type
              (Some [LauncherSubclass InProcessComponentLauncher;
                     OtherClass "object"]) (Some configs)
            = Raise (TypeError msg)).
Proof.
  split.
  - apply (proj1 (init_rejects_launcher_classes config_type (Some []) _)).
    right. reflexivity.
  - apply (proj2 (init_rejects_launcher_classes config_type _ _) _ eq_refl).
    apply Exists_cons_tl, Exists_cons_hd. discriminate.
Defined.

(** C4 as stated fails: with an empty component id among the keys and a
    launcher list that holds a class outside the launcher hierarchy, the
    construction raises the [TypeError] of the launcher validation, not a
    [ValueError]. *)
Lemma init_bad_configs_type_error :
  let classes := [LauncherSubclass InProcessComponentLauncher;
                  OtherClass "object"] in
  let M : list (string * list BasePlatformConfig) := [("", [])] in
  bad_platform_configs config_type M
  ∧ ¬ ∃ msg, __init__ config_type (Some classes) (Some M)
             = Raise (ValueError msg).
Proof.
  split.
  - exists "", []. split; [left|by left].
  - intros [msg Hmsg]. vm_compute in Hmsg. discriminate Hmsg.
Qed.

Lemma init_validates_platform_configs_witness :
  _validate_supported_launcher_classes
    {| _supported_launcher_classes := Some launchers;
       _platform_configs :=
         [("Trainer", [DockerComponentConfig "a"; DockerComponentConfig "b"])] |}
  = Ok ()
  ∧ (∃ msg, __init__ config_type (Some launchers)
              (Some [("Trainer", [DockerComponentConfig "a";
                                  DockerComponentConfig "b"])])
            = Raise (ValueError msg))
  ∧ __init__ config_type (Some launchers) (Some configs) = Ok runner.
Proof.
  split; [reflexivity|]. split.
  - apply (proj1 (proj2 (init_validates_platform_configs config_type
            (Some launchers)
            [("Trainer", [DockerComponentConfig "a"; DockerComponentConfig "b"])])
          eq_refl)).
    exists "Trainer", [DockerComponentConfig "a"; DockerComponentConfig "b"].
    split; [left|right].
    exists 0, 1, (DockerComponentConfig "a"), (DockerComponentConfig "b").
    split_and!; [lia|reflexivity..].
  - apply (proj2 (proj2 (init_validates_platform_configs config_type
                           (Some launchers) configs) eq_refl)).
    intros (k & l & Hin & Hbad).
    apply list_elem_of_singleton in Hin as [= -> ->].
    destruct Hbad as [Hempty|(i & j & a & b & Hij & Ha & Hb & Hab)];
      [discriminate Hempty|].
    destruct i as [|[|i]], j as [|[|j]];
      try lia; try discriminate Ha; try discriminate Hb;
      vm_compute in Ha, Hb; injection Ha as <-; injection Hb as <-;
      discriminate Hab.
Defined.

End tfx_runner_facts.

(** ** The build spec *)

Module buildspec_facts.
Import buildspec.

Section facts.
Context {Content : Type}.
Context (yaml_dump : pyvalue → Content).
Context (yaml_safe_load : Content → result pyvalue).
Context (open_w_error : string → option exn).
Context (BUILD_SPEC_FILENAME BUILD_CONTEXT DOCKERFILE_NAME
         SKAFFOLD_API_VERSION : string).

Abbreviation World' := (@World Content).
Abbreviation init :=
  (__init__ yaml_dump yaml_safe_load open_w_error SKAFFOLD_API_VERSION).
Abbreviation construct :=
  (new yaml_dump yaml_safe_load open_w_error BUILD_SPEC_FILENAME BUILD_CONTEXT
       DOCKERFILE_NAME SKAFFOLD_API_VERSION).

Implicit Types (w : World') (content : Content) (doc : pyvalue).
Implicit Types (target_image : option string).

Ltac step :=
  cbn [self world buildspec.filename buildspec.build_context
       buildspec.target_image _buildspec files console].

Ltac raised :=
  cbn [fst snd]; step; split_and!; [reflexivity..|intros [=]].

Ltac run_init :=
  unfold __init__, _read_existing_build_spec, _generate_default,
    os_path_exists, get_self, open_r, open_w_dump, click_echo,
    click_echo_to_str, set__buildspec, set_build_context, lift, raise,
    mbind, M_bind, mret, M_ret;
  step.

(** *** Loading while a target image is passed *)

Lemma load_with_target_image filename image build_context dockerfile_name
    w content :
  files w !! filename = Some content →
  ∃ message,
    py_format "Reading build spec from %s" [filename] = Ok message
    ∧ init filename (Some image) build_context dockerfile_name w
      = (Raise (TypeError "not enough arguments for format string"),
         {| self := {| buildspec.filename := filename;
                       buildspec.build_context := PyStr build_context;
                       buildspec.target_image := Some image;
                       _buildspec := None |};
            world := {| files := files w;
                        console := console w ++ [message] |} |}).
Proof.
  intros Hfile. eexists. split; [reflexivity|].
  unfold __init__, os_path_exists, mbind, M_bind. cbn [self world].
  rewrite bool_decide_eq_true_2 by eauto.
  unfold _read_existing_build_spec, get_self, open_r, mbind, M_bind.
  cbn [self world buildspec.filename]. rewrite Hfile.
  reflexivity.
Qed.

(** *** Loading without a target image *)

Lemma load_without_target_image filename build_context dockerfile_name
    w content doc :
  files w !! filename = Some content →
  yaml_safe_load content = Ok doc →
  ∃ message,
    py_format "Reading build spec from %s" [filename] = Ok message
    ∧ let loaded workspace :=
        {| self := {| buildspec.filename := filename;
                      buildspec.build_context := workspace;
                      buildspec.target_image := None;
                      _buildspec := Some doc |};
           world := {| files := files w;
                       console := console w ++ [message] |} |} in
      init filename None build_context dockerfile_name w
      = match getpath doc [KStr "build"; KStr "artifacts"] with
        | Raise e => (Raise e, loaded (PyStr build_context))
        | Ok artifacts =>
            match len artifacts with
            | Raise e => (Raise e, loaded (PyStr build_context))
            | Ok count =>
                if decide (count = 1) then
                  match getpath artifacts [KInt 0; KStr "workspace"] with
                  | Ok workspace => (Ok (), loaded workspace)
                  | Raise e => (Raise e, loaded (PyStr build_context))
                  end
                else
                  (Raise (RuntimeError
                            ("The build spec contains multiple artifacts however"
                             +:+ "only one is supported.")),
                   loaded (PyStr build_context))
            end
        end.
Proof.
  intros Hfile Hload. eexists. split; [reflexivity|]. run_init.
  rewrite bool_decide_eq_true_2 by eauto. step. rewrite Hfile.
  cbn [py_format Ascii.eqb Bool.eqb]. step. rewrite Hload. step.
  unfold getpath. cbn [foldl]. unfold mbind, result_bind.
  destruct (getitem doc (KStr "build")) as [build|e]; [|reflexivity].
  destruct (getitem build (KStr "artifacts")) as [artifacts|e]; [|reflexivity].
  destruct (len artifacts) as [count|e]; [|reflexivity].
  destruct (Nat.eqb_spec count 1) as [->|Hcount]; cbn [negb].
  - rewrite decide_True by done.
    destruct (getitem artifacts (KInt 0)) as [artifact|e]; [|reflexivity].
    by destruct (getitem artifact (KStr "workspace")).
  - by rewrite decide_False.
Qed.

Lemma load_unreadable filename build_context dockerfile_name w content e :
  files w !! filename = Some content →
  yaml_safe_load content = Raise e →
  ∃ message,
    init filename None build_context dockerfile_name w
    = (Raise e,
       {| self := {| buildspec.filename := filename;
                     buildspec.build_context := PyStr build_context;
                     buildspec.target_image := None;
                     _buildspec := None |};
          world := {| files := files w;
                      console := console w ++ [message] |} |}).
Proof.
  intros Hfile Hload. eexists. run_init.
  rewrite bool_decide_eq_true_2 by eauto. step. rewrite Hfile.
  cbn [py_format Ascii.eqb Bool.eqb]. step. rewrite Hload. reflexivity.
Qed.

(** *** Construction without a file *)

Lemma generate_default filename image build_context dockerfile_name w :
  files w !! filename = None →
  open_w_error filename = None →
  let this := {| buildspec.filename := filename;
                 buildspec.build_context := PyStr build_context;
                 buildspec.target_image := Some image;
                 _buildspec := None |} in
  let doc := default_buildspec SKAFFOLD_API_VERSION this dockerfile_name in
  init filename (Some image) build_context dockerfile_name w
  = (Ok (),
     {| self := {| buildspec.filename := filename;
                   buildspec.build_context := PyStr build_context;
                   buildspec.target_image := Some image;
                   _buildspec := Some doc |};
        world := {| files := <[filename := yaml_dump doc]> (files w);
                    console := console w |} |}).
Proof.
  intros Hfile Hopen. run_init.
  rewrite bool_decide_eq_false_2; [|rewrite Hfile; by intros [??]].
  step. by rewrite Hopen.
Qed.

(** Where [open(filename, 'w')] raises, the default document is already
    bound to [_buildspec], and nothing is written. *)
Lemma generate_default_fails filename image build_context dockerfile_name
    w e :
  files w !! filename = None →
  open_w_error filename = Some e →
  let this := {| buildspec.filename := filename;
                 buildspec.build_context := PyStr build_context;
                 buildspec.target_image := Some image;
                 _buildspec := None |} in
  let doc := default_buildspec SKAFFOLD_API_VERSION this dockerfile_name in
  init filename (Some image) build_context dockerfile_name w
  = (Raise e,
     {| self := {| buildspec.filename := filename;
                   buildspec.build_context := PyStr build_context;
                   buildspec.target_image := Some image;
                   _buildspec := Some doc |};
        world := w |}).
Proof.
  intros Hfile Hopen. run_init.
  rewrite bool_decide_eq_false_2; [|rewrite Hfile; by intros [??]].
  step. rewrite Hopen. by destruct w.
Qed.

Lemma no_file_no_target_image filename build_context dockerfile_name w :
  files w !! filename = None →
  init filename None build_context dockerfile_name w
  = (Raise (ValueError ("BuildSpec: target_image is not given and there is no "
                        +:+ "existing build spec file.")),
     {| self := {| buildspec.filename := filename;
                   buildspec.build_context := PyStr build_context;
                   buildspec.target_image := None;
                   _buildspec := None |};
        world := w |}).
Proof.
  intros Hfile. run_init.
  rewrite bool_decide_eq_false_2; [reflexivity|].
  rewrite Hfile. by intros [??].
Qed.

Lemma getitem_not_runtime_error v k msg :
  getitem v k ≠ Raise (RuntimeError msg).
Proof.
  destruct v as [| | |s|items|items], k as [key|i]; simpl; try done.
  - by destruct (seq_index _ _ ≫= _).
  - by destruct (seq_index _ _ ≫= _).
  - unfold dict_getitem. by destruct (dict_get _ _).
  - unfold dict_getitem. by destruct (dict_get _ _).
Qed.

(** Without a target image, loading a file whose [build.artifacts] is a
    list raises a [RuntimeError] exactly when the list does not have one
    entry, and takes the build context from the [workspace] of the single
    entry otherwise. *)
Lemma load_checks_artifact_count
    filename build_context dockerfile_name w content doc artifacts :
  files w !! filename = Some content →
  yaml_safe_load content = Ok doc →
  getpath doc [KStr "build"; KStr "artifacts"] = Ok (PyList artifacts) →
  let r := init filename None build_context dockerfile_name w in
  ((∃ msg, r.1 = Raise (RuntimeError msg)) ↔ length artifacts ≠ 1)
  ∧ (∀ artifact workspace,
       artifacts = [artifact] →
       getitem artifact (KStr "workspace") = Ok workspace →
       r.1 = Ok () ∧ buildspec.build_context (self r.2) = workspace).
Proof.
  intros Hfile Hload Hartifacts r. subst r.
  destruct (load_without_target_image filename build_context dockerfile_name
              w content doc Hfile Hload) as (message & _ & ->).
  rewrite Hartifacts. cbn [len]. split.
  - case_decide as Hcount; [|cbn [fst]; split; [done|eauto]].
    destruct artifacts as [|artifact [|??]]; try done.
    unfold getpath. cbn [foldl]. unfold mbind, result_bind.
    cbn [getitem seq_index]. simpl.
    destruct (getitem artifact (KStr "workspace")) eqn:Hworkspace;
      cbn [fst]; (split; [|done]).
    + by intros [msg [=]].
    + intros [msg [= ->]].
      by destruct (getitem_not_runtime_error _ _ _ Hworkspace).
  - intros artifact workspace -> Hworkspace. rewrite decide_True by done.
    unfold getpath. cbn [foldl]. unfold mbind, result_bind.
    simpl. by rewrite Hworkspace.
Qed.

(** *** Documents that are equal up to the order of their keys *)

Lemma doc_eqb_str s d : doc_eqb (PyStr s) d = true → d = PyStr s.
Proof.
  destruct d; cbn [doc_eqb]; try done.
  intros Heq%bool_decide_eq_true. by subst.
Qed.

Lemma doc_eqb_dict_get xs d k v :
  doc_eqb (PyDict xs) d = true →
  dict_get k xs = Some v →
  ∃ ys v', d = PyDict ys ∧ dict_get k ys = Some v' ∧ doc_eqb v v' = true.
Proof.
  destruct d as [| | | | |ys]; cbn [doc_eqb]; try done.
  intros [_ Hitems]%andb_prop Hget. exists ys.
  induction xs as [|[k0 v0] xs IH]; [done|].
  apply andb_prop in Hitems as [Hhead Htail].
  cbn [dict_get] in Hget. case_decide; [|by apply IH].
  simplify_eq. destruct (dict_get k ys) as [v'|]; [|done]. by exists v'.
Qed.

Lemma doc_eqb_list xs d :
  doc_eqb (PyList xs) d = true →
  ∃ ys, d = PyList ys ∧ Forall2 (λ x y, doc_eqb x y = true) xs ys.
Proof.
  destruct d as [| | | |ys|]; cbn [doc_eqb]; try done.
  intros Hentries. exists ys. split; [done|]. revert ys Hentries.
  induction xs as [|x xs IH]; intros [|y ys] Hentries; try done.
  apply andb_prop in Hentries as [Hhead Htail]. constructor; auto.
Qed.

(** A document equal to the default build spec has one artifact, and its
    [workspace] is the build context of the default. *)
Lemma default_buildspec_reread this dockerfile_name doc' workspace :
  buildspec.build_context this = PyStr workspace →
  doc_eqb (default_buildspec SKAFFOLD_API_VERSION this dockerfile_name) doc'
  = true →
  ∃ artifact',
    getpath doc' [KStr "build"; KStr "artifacts"] = Ok (PyList [artifact'])
    ∧ getitem artifact' (KStr "workspace") = Ok (PyStr workspace).
Proof.
  intros Hcontext Heq. unfold default_buildspec in Heq.
  destruct (doc_eqb_dict_get _ _ (KStr "build") _ Heq eq_refl)
    as (items & build' & -> & Hbuild & Heq_build).
  destruct (doc_eqb_dict_get _ _ (KStr "artifacts") _ Heq_build eq_refl)
    as (items' & artifacts' & -> & Hartifacts & Heq_artifacts).
  destruct (doc_eqb_list _ _ Heq_artifacts) as (entries & -> & Hentries).
  inversion Hentries as [|artifact artifact' rest rest' Heq_artifact Hrest];
    subst.
  inversion Hrest; subst.
  destruct (doc_eqb_dict_get _ _ (KStr "workspace") _ Heq_artifact eq_refl)
    as (items'' & workspace' & -> & Hworkspace & Heq_workspace).
  rewrite Hcontext in Heq_workspace.
  apply doc_eqb_str in Heq_workspace as ->.
  exists (PyDict items''). unfold getpath. cbn [foldl].
  unfold mbind, result_bind. cbn [getitem]. unfold dict_getitem.
  rewrite Hbuild. cbn [getitem]. unfold dict_getitem.
  by rewrite Hartifacts, Hworkspace.
Qed.

(** Generating a default build spec at a path where a file can be created
    and then constructing a second build spec from that file without a
    target image, with any build context and dockerfile name, yields the
    build context supplied to the first construction and a document equal
    to the one generated, provided the YAML library reads back a document
    equal to the one it dumped, the order of the keys apart. *)
Lemma generate_then_reload
    filename image build_context dockerfile_name
    build_context' dockerfile_name' w :
  files w !! filename = None →
  open_w_error filename = None →
  let first := init filename (Some image) build_context dockerfile_name w in
  (∀ doc, _buildspec (self first.2) = Some doc →
          ∃ doc', yaml_safe_load (yaml_dump doc) = Ok doc'
                  ∧ doc_eqb doc doc' = true) →
  let second :=
    init filename None build_context' dockerfile_name' (world first.2) in
  first.1 = Ok () ∧ second.1 = Ok ()
  ∧ buildspec.build_context (self second.2) = PyStr build_context
  ∧ (∃ doc doc',
       _buildspec (self first.2) = Some doc
       ∧ _buildspec (self second.2) = Some doc'
       ∧ doc_eqb doc doc' = true)
  ∧ files (world second.2) = files (world first.2).
Proof.
  intros Hfile Hopen first Hcodec second. subst first second. revert Hcodec.
  rewrite generate_default by done. cbn [fst snd self world _buildspec].
  intros Hcodec. destruct (Hcodec _ eq_refl) as (doc' & Hload & Heq).
  edestruct (load_without_target_image filename build_context'
               dockerfile_name') as (message & _ & ->);
    [apply lookup_insert_eq|exact Hload|].
  destruct (λ H, default_buildspec_reread _ _ _ build_context H Heq)
    as (artifact' & Hartifacts & Hworkspace); [reflexivity|].
  rewrite Hartifacts.
  cbn [len length]. rewrite decide_True by done.
  unfold getpath. cbn [foldl]. unfold mbind, result_bind.
  cbn [getitem seq_index]. simpl. rewrite Hworkspace.
  cbn [fst snd self world buildspec.build_context _buildspec files].
  split_and!; [done..| |done]. by eexists _, _.
Qed.

(** *** The claims about the build spec *)

(** C6.  When no file exists at the path, construction without a target
    image raises a [ValueError] and leaves the disk as it was.  With a
    target image, where [open(filename, 'w')] can create the file, the
    construction returns and creates it, and the file holds the dump of a
    document with exactly one artifact whose [image] is the target image,
    whose [workspace] is the build context and whose [docker.dockerfile]
    is the dockerfile name, each as supplied or as defaulted by the
    signature; where [open] raises, the construction raises the same
    error and creates no file. *)
Theorem construct_without_file
    (filename build_context dockerfile_name : option string) w :
  files w !! default BUILD_SPEC_FILENAME filename = None →
  (∃ msg,
     (construct filename None build_context dockerfile_name w).1
     = Raise (ValueError msg)
     ∧ files (world (construct filename None build_context dockerfile_name w).2)
       = files w)
  ∧ ∀ image,
      let r := construct filename (Some image) build_context dockerfile_name w in
      match open_w_error (default BUILD_SPEC_FILENAME filename) with
      | None =>
          ∃ doc artifact,
            r.1 = Ok ()
            ∧ files (world r.2)
              = <[default BUILD_SPEC_FILENAME filename := yaml_dump doc]> (files w)
            ∧ getpath doc [KStr "build"; KStr "artifacts"]
              = Ok (PyList [artifact])
            ∧ getitem artifact (KStr "image") = Ok (PyStr image)
            ∧ getitem artifact (KStr "workspace")
              = Ok (PyStr (default BUILD_CONTEXT build_context))
            ∧ getpath artifact [KStr "docker"; KStr "dockerfile"]
              = Ok (PyStr (default DOCKERFILE_NAME dockerfile_name))
      | Some e => r.1 = Raise e ∧ files (world r.2) = files w
      end.
Proof.
  intros Hfile. unfold new. split.
  - rewrite no_file_no_target_image by done. eauto.
  - intros image.
    destruct (open_w_error (default BUILD_SPEC_FILENAME filename))
      as [e|] eqn:Hopen.
    + by rewrite (generate_default_fails _ _ _ _ _ e).
    + rewrite generate_default by done.
      eexists _, _. cbn [fst snd world files]. split_and!; reflexivity.
Qed.

(** C10.  Construction over an existing file leaves the [target_image]
    attribute equal to the constructor argument, keeps the [filename] and
    does not touch the disk, whatever the outcome; when it returns,
    [_buildspec] is the document read from the file and [build_context]
    is the [workspace] of its single artifact. *)
Theorem load_keeps_target_image
    filename target_image build_context dockerfile_name w content :
  files w !! filename = Some content →
  let r := init filename target_image build_context dockerfile_name w in
  buildspec.target_image (self r.2) = target_image
  ∧ buildspec.filename (self r.2) = filename
  ∧ files (world r.2) = files w
  ∧ (r.1 = Ok () →
     ∃ doc,
       yaml_safe_load content = Ok doc
       ∧ _buildspec (self r.2) = Some doc
       ∧ getpath doc [KStr "build"; KStr "artifacts"] ≫= len = Ok 1
       ∧ getpath doc [KStr "build"; KStr "artifacts"; KInt 0; KStr "workspace"]
         = Ok (buildspec.build_context (self r.2))).
Proof.
  intros Hfile r. subst r. destruct target_image as [image|].
  { destruct (load_with_target_image filename image build_context
                dockerfile_name w content Hfile) as (message & _ & ->).
    raised. }
  destruct (yaml_safe_load content) as [doc|e] eqn:Hload.
  2:{ destruct (load_unreadable filename build_context dockerfile_name
                  w content e Hfile Hload) as (message & ->).
      raised. }
  destruct (load_without_target_image filename build_context dockerfile_name
              w content doc Hfile Hload) as (message & _ & ->).
  unfold getpath. cbn [foldl]. unfold mbind, result_bind.
  destruct (getitem doc (KStr "build")) as [build|] eqn:Hbuild; [|raised].
  destruct (getitem build (KStr "artifacts")) as [artifacts|] eqn:Hartifacts;
    [|raised].
  destruct (len artifacts) as [count|] eqn:Hcount; [|raised].
  destruct (decide (count = 1)) as [->|]; [|raised].
  destruct (getitem artifacts (KInt 0)) as [artifact|] eqn:Hartifact;
    [|raised].
  destruct (getitem artifact (KStr "workspace")) as [workspace|] eqn:Hworkspace;
    [|raised].
  cbn [fst snd]. step. split_and!; [reflexivity..|].
  intros _. exists doc. rewrite Hbuild, Hartifacts, Hcount, Hartifact.
  by split_and!.
Qed.

End facts.

Import buildspec_example.

(** C5.  A file with two artifacts, loaded while a target image is passed:
    the construction raises the [TypeError] of the [%] operator on the
    warning message, where the claim expects the [RuntimeError] of the
    artifact count; without the target image the [RuntimeError] is
    raised. *)
Theorem two_artifacts_with_target_image :
  let image := Some "gcr.io/project/image" in
  let doc := build_spec [artifact "gcr.io/project/image" "src";
                         artifact "gcr.io/project/other" "lib"] in
  files two_artifact_disk !! "build.yaml" = Some (yaml_dump doc)
  ∧ yaml_safe_load (yaml_dump doc) = Ok doc
  ∧ getpath doc [KStr "build"; KStr "artifacts"] ≫= len = Ok 2
  ∧ (BuildSpec "build.yaml" image "." "Dockerfile" two_artifact_disk).1
    = Raise (TypeError "not enough arguments for format string")
  ∧ (BuildSpec "build.yaml" None "." "Dockerfile" two_artifact_disk).1
    = Raise (RuntimeError
               ("The build spec contains multiple artifacts however"
                +:+ "only one is supported.")).
Proof. split_and!; vm_compute; reflexivity. Qed.

(** C7.  A default build spec is generated and the file is then loaded
    with the same arguments: the second construction raises the
    [TypeError] of the warning message and its build context is never
    taken from the file; loaded without the target image, the build
    context of the first construction comes back. *)
Theorem reload_with_target_image :
  let image := Some "gcr.io/project/image" in
  let first := BuildSpec "build.yaml" image "src" "Dockerfile" empty_disk in
  let second := BuildSpec "build.yaml" image "." "Dockerfile" (world first.2) in
  let plain := BuildSpec "build.yaml" None "." "Dockerfile" (world first.2) in
  first.1 = Ok ()
  ∧ second.1 = Raise (TypeError "not enough arguments for format string")
  ∧ buildspec.build_context (self second.2) = PyStr "."
  ∧ plain.1 = Ok ()
  ∧ buildspec.build_context (self plain.2) = PyStr "src".
Proof. split_and!; vm_compute; reflexivity. Qed.

(** C8.  A file with one artifact, loaded while a target image is passed:
    the construction raises a [TypeError] and the warning is never
    printed; the same file loads when no target image is passed. *)
Theorem one_artifact_with_target_image :
  let image := Some "gcr.io/project/image" in
  let r := BuildSpec "build.yaml" image "." "Dockerfile" one_artifact_disk in
  r.1 = Raise (TypeError "not enough arguments for format string")
  ∧ console (world r.2) = ["Reading build spec from build.yaml"]
  ∧ (BuildSpec "build.yaml" None "." "Dockerfile" one_artifact_disk).1 = Ok ().
Proof. split_and!; vm_compute; reflexivity. Qed.

(** C6 as stated fails: at the empty path there is no file and
    [open('', 'w')] raises, so a construction with a target image raises
    a [FileNotFoundError] and creates no file; the same holds below a
    directory that does not exist. *)
Lemma construct_without_directory :
  let image := Some "gcr.io/project/image" in
  let r := BuildSpec "" image "." "Dockerfile" empty_disk in
  let r' := BuildSpec "missing_dir/build.yaml" image "." "Dockerfile"
                      empty_disk in
  files empty_disk !! "" = None
  ∧ r.1 = Raise (FileNotFoundError "")
  ∧ files (world r.2) !! "" = None
  ∧ files empty_disk !! "missing_dir/build.yaml" = None
  ∧ r'.1 = Raise (FileNotFoundError "missing_dir/build.yaml")
  ∧ files (world r'.2) !! "missing_dir/build.yaml" = None.
Proof. split_and!; vm_compute; reflexivity. Qed.

Lemma construct_without_file_witness :
  files empty_disk !! "build.yaml" = None
  ∧ (∃ msg,
       (new yaml_dump yaml_safe_load open_w_error BUILD_SPEC_FILENAME
            BUILD_CONTEXT DOCKERFILE_NAME SKAFFOLD_API_VERSION
            None None None None empty_disk).1 = Raise (ValueError msg))
  ∧ (new yaml_dump yaml_safe_load open_w_error BUILD_SPEC_FILENAME
         BUILD_CONTEXT DOCKERFILE_NAME SKAFFOLD_API_VERSION None
         (Some "gcr.io/project/image") (Some "src") None empty_disk).1 = Ok ()
  ∧ files empty_disk !! "missing_dir/build.yaml" = None
  ∧ (new yaml_dump yaml_safe_load open_w_error BUILD_SPEC_FILENAME
         BUILD_CONTEXT DOCKERFILE_NAME SKAFFOLD_API_VERSION
         (Some "missing_dir/build.yaml") (Some "gcr.io/project/image")
         None None empty_disk).1
    = Raise (FileNotFoundError "missing_dir/build.yaml").
Proof.
  assert (files empty_disk !! "build.yaml" = None) as Hfile by reflexivity.
  assert (files empty_disk !! "missing_dir/build.yaml" = None) as Hfile'
    by reflexivity.
  split; [exact Hfile|]. split; [|split; [|split; [exact Hfile'|]]].
  - destruct (construct_without_file yaml_dump yaml_safe_load open_w_error
                BUILD_SPEC_FILENAME BUILD_CONTEXT DOCKERFILE_NAME
                SKAFFOLD_API_VERSION None None None empty_disk Hfile)
      as [(msg & Hmsg & _) _].
    exists msg. exact Hmsg.
  - destruct (construct_without_file yaml_dump yaml_safe_load open_w_error
                BUILD_SPEC_FILENAME BUILD_CONTEXT DOCKERFILE_NAME
                SKAFFOLD_API_VERSION None (Some "src") None empty_disk Hfile)
      as [_ Himage].
    destruct (Himage "gcr.io/project/image") as (doc & art & Hok & _).
    exact Hok.
  - destruct (construct_without_file yaml_dump yaml_safe_load open_w_error
                BUILD_SPEC_FILENAME BUILD_CONTEXT DOCKERFILE_NAME
                SKAFFOLD_API_VERSION (Some "missing_dir/build.yaml") None None
                empty_disk Hfile')
      as [_ Himage].
    exact (proj1 (Himage "gcr.io/project/image")).
Defined.

Lemma load_keeps_target_image_witness :
  files one_artifact_disk !! "build.yaml"
  = Some (build_spec [artifact "gcr.io/project/image" "src"])
  ∧ buildspec.target_image
      (self (BuildSpec "build.yaml" None "." "Dockerfile" one_artifact_disk).2)
    = None
  ∧ buildspec.target_image
      (self (BuildSpec "build.yaml" (Some "gcr.io/other") "." "Dockerfile"
                       one_artifact_disk).2)
    = Some "gcr.io/other".
Proof.
  assert (files one_artifact_disk !! "build.yaml"
          = Some (build_spec [artifact "gcr.io/project/image" "src"]))
    as Hfile by (vm_compute; reflexivity).
  split; [exact Hfile|]. split.
  - exact (proj1 (load_keeps_target_image yaml_dump yaml_safe_load open_w_error
                    SKAFFOLD_API_VERSION "build.yaml" None "." "Dockerfile"
                    one_artifact_disk _ Hfile)).
  - exact (proj1 (load_keeps_target_image yaml_dump yaml_safe_load open_w_error
                    SKAFFOLD_API_VERSION "build.yaml" (Some "gcr.io/other")
                    "." "Dockerfile" one_artifact_disk _ Hfile)).
Defined.

End buildspec_facts.

(** ** The example component *)

Module hello_component_facts.
Import hello_component.

Lemma spec_accepts in_channel out_channel text :
  type in_channel = Examples → type out_channel = Examples →
  HelloComponentSpec (Some in_channel) (Some out_channel) (Some text)
  = Ok {| parameters := {[ "name" := text ]};
          inputs := {[ "input_data" := in_channel ]};
          outputs := {[ "output_data" := out_channel ]} |}.
Proof.
  intros Hin Hout. unfold HelloComponentSpec, raw.
  cbn [comprehension PARAMETERS INPUTS OUTPUTS parameters inputs outputs].
  unfold check_parameter, check_channel. cbn [fst snd].
  rewrite !lookup_singleton_eq, !decide_True by done. reflexivity.
Qed.

Lemma spec_keeps_output_data input_data out_channel name spec :
  HelloComponentSpec input_data (Some out_channel) name = Ok spec →
  outputs spec !! "output_data" = Some out_channel.
Proof.
  unfold HelloComponentSpec.
  destruct (comprehension _ PARAMETERS); [|done].
  destruct (comprehension _ INPUTS); [|done].
  destruct (comprehension _ OUTPUTS); [|done].
  intros [= <-]. apply lookup_singleton_eq.
Qed.

(** C9.  Constructing the component without an output channel is
    constructing it with a channel minted by the constructor: an Examples
    channel under a new identity that holds two new Examples artifacts,
    for the splits train and eval in this order.  A channel supplied by the
    caller is the one bound to [output_data] of the component's spec, and
    the construction returns on an Examples input channel, an Examples
    output channel and a name. *)
Theorem init_binds_output_data input_data name next :
  let minted := {|
    channel_oid := S (S next);
    type := Examples;
    artifacts := [
      {| artifact_oid := next; artifact_class := Examples; split := "train" |};
      {| artifact_oid := S next; artifact_class := Examples; split := "eval" |}]
  |} in
  __init__ input_data None name next
  = __init__ input_data (Some minted) name (S (S (S next)))
  ∧ (∀ channel component next',
       __init__ input_data (Some channel) name next = (Ok component, next') →
       outputs (spec component) !! "output_data" = Some channel)
  ∧ (∀ channel in_channel text,
       input_data = Some in_channel → name = Some text →
       type in_channel = Examples → type channel = Examples →
       ∃ component,
         __init__ input_data (Some channel) name next = (Ok component, next)).
Proof.
  intros minted. split_and!.
  - reflexivity.
  - intros channel component next'. unfold __init__, lift, mbind, M_bind, mret, M_ret.
    destruct (HelloComponentSpec input_data (Some channel) name) as [spec|]
      eqn:Hspec; [|done].
    unfold BaseComponent__init__, mret, M_ret. intros [= <- <-].
    by eapply spec_keeps_output_data.
  - intros channel in_channel text -> -> Hin Hout.
    unfold __init__, lift, mbind, M_bind, mret, M_ret.
    rewrite spec_accepts by done. eexists. reflexivity.
Qed.

Lemma init_binds_output_data_witness :
  let upstream := {|
    channel_oid := 1;
    type := Examples;
    artifacts := [{| artifact_oid := 0; artifact_class := Examples;
                     split := "train" |}]
  |} in
  let minted := {|
    channel_oid := 4;
    type := Examples;
    artifacts := [
      {| artifact_oid := 2; artifact_class := Examples; split := "train" |};
      {| artifact_oid := 3; artifact_class := Examples; split := "eval" |}]
  |} in
  ∃ component,
    __init__ (Some upstream) None (Some "HelloWorld") 2 = (Ok component, 5)
    ∧ outputs (spec component) !! "output_data" = Some minted.
Proof.
  intros upstream minted.
  destruct (init_binds_output_data (Some upstream) (Some "HelloWorld") 5)
    as (_ & Hbound & Hreturns).
  destruct (Hreturns minted upstream "HelloWorld"
              eq_refl eq_refl eq_refl eq_refl) as [component Hcomponent].
  exists component. split.
  - rewrite (proj1 (init_binds_output_data (Some upstream)
                      (Some "HelloWorld") 2)).
    exact Hcomponent.
  - exact (Hbound _ _ _ Hcomponent).
Defined.

End hello_component_facts.

(** * Further properties *)

(** ** The runner: construction and lookup *)

Module tfx_runner_properties.
Import tfx_runner tfx_runner_facts.

Lemma dict_get_Some_elem {K V} `{EqDecision K} (k : K) (d : list (K * V)) v :
  dict_get k d = Some v → (k, v) ∈ d.
Proof.
  induction d as [|[k' v'] d IH]; [done|]. simpl.
  case_decide as Hk; [intros [= ->]; subst; left|right; auto].
Qed.

Section properties.
Context {ExecutorSpec PlatformConfig TypeId : Type}.
Context `{Countable TypeId}.
Context (py_type : PlatformConfig → TypeId).

Abbreviation Runner := (@TfxRunner ExecutorSpec PlatformConfig).
Abbreviation Component := (@BaseComponent ExecutorSpec).
Abbreviation Entry := (@pyobject ExecutorSpec PlatformConfig).
Abbreviation init := (__init__ (ExecutorSpec := ExecutorSpec) py_type).

Implicit Types (self : Runner) (component : Component) (cls : Entry).
Implicit Types (classes : list Entry) (cfg : option PlatformConfig).

(** What a returned pair is made of. *)
Lemma find_ok_inv self component classes cls cfg :
  _supported_launcher_classes self = Some classes →
  Forall is_launcher classes →
  find_component_launch_info self component = Ok (cls, cfg) →
  cls ∈ classes
  ∧ cfg ∈ candidate_platform_configs self component
  ∧ capable component (cls, cfg).
Proof.
  intros Hclasses Hall.
  rewrite (find_component_launch_info_refines self component classes)
    by done.
  destruct (first_capable self component) as [info|] eqn:Hfirst; [|done].
  intros [= ->].
  apply first_capable_Some in Hfirst as (i & Hi & Hcapable & _).
  apply list_elem_of_lookup_2, elem_of_launch_candidates in Hi as [Hcls Hcfg].
  rewrite Hclasses in Hcls. done.
Qed.

Lemma elem_of_candidate_configs self component cfg :
  cfg ∈ candidate_platform_configs self component
  ↔ cfg = None
    ∨ ∃ registered x,
        dict_get (id component) (_platform_configs self) = Some registered
        ∧ x ∈ registered ∧ cfg = Some x.
Proof.
  unfold candidate_platform_configs.
  rewrite elem_of_app, list_elem_of_singleton, list_elem_of_fmap. split.
  - intros [(x & Hcfg & Hx)| Hcfg]; subst cfg; [right|by left].
    destruct (dict_get _ _) as [registered|]; [eauto|].
    by apply elem_of_nil in Hx.
  - intros [Hcfg|(registered & x & Hget & Hx & Hcfg)]; subst cfg;
      [by right|left].
    rewrite Hget. eauto.
Qed.

(** X1.  The constructor returns exactly when the launcher list is a
    non-empty list of launcher classes, no key of the platform configs is
    empty and no component has two configs of one type; the runner it
    returns holds the list and the configs as given, with [None] for the
    configs read as the empty map. *)
Theorem init_returns_iff L platform_configs self :
  init L platform_configs = Ok self
  ↔ self = {| _supported_launcher_classes := L;
              _platform_configs := default [] platform_configs |}
    ∧ (∃ classes, L = Some classes ∧ classes ≠ []
                  ∧ Forall is_launcher classes)
    ∧ ¬ bad_platform_configs py_type (default [] platform_configs).
Proof.
  split; [apply init_ok_inv|].
  intros (-> & (classes & -> & Hne & Hall) & Hgood). by apply init_ok.
Qed.

(** X2.  A pair returned by the lookup of a constructed runner consists of
    a launcher class of the runner's list that reports it can launch the
    component's executor under the returned config, and the config is
    [None] or one of the configs registered for the component's id. *)
Theorem launch_info_sound L platform_configs self component cls cfg :
  init L platform_configs = Ok self →
  find_component_launch_info self component = Ok (cls, cfg) →
  cls ∈ default [] L
  ∧ (∃ l, cls = LauncherSubclass l
          ∧ can_launch l (executor_spec component) cfg = true)
  ∧ (cfg = None
     ∨ ∃ registered x,
         dict_get (id component) (default [] platform_configs) = Some registered
         ∧ x ∈ registered ∧ cfg = Some x).
Proof.
  intros Hinit Hfind.
  apply init_ok_inv in Hinit as (-> & (classes & -> & Hne & Hall) & Hgood).
  apply (find_ok_inv _ _ classes) in Hfind as (Hcls & Hcfg & Hcapable);
    [|done..].
  split_and!; [done| |by apply elem_of_candidate_configs in Hcfg].
  destruct (is_launcher_inv cls) as [l ->].
  { by eapply Forall_forall in Hall. }
  exists l. split; [done|]. by injection Hcapable.
Qed.

(** X3.  On a constructed runner a returned config is the only config of
    its concrete type registered for the component: the validation of the
    constructor rules out a second one. *)
Theorem launch_config_unique_of_type
    L platform_configs self component cls x registered y :
  init L platform_configs = Ok self →
  find_component_launch_info self component = Ok (cls, Some x) →
  dict_get (id component) (default [] platform_configs) = Some registered →
  y ∈ registered → py_type y = py_type x → y = x.
Proof.
  intros Hinit Hfind Hget Hy Htype.
  apply init_ok_inv in Hinit as (-> & (classes & -> & Hne & Hall) & Hgood).
  apply (find_ok_inv _ _ classes) in Hfind as (_ & Hcfg & _); [|done..].
  apply elem_of_candidate_configs in Hcfg
    as [[=]|(registered' & x' & Hget' & Hx & [= <-])].
  simpl in Hget'. rewrite Hget in Hget'. injection Hget' as <-.
  apply list_elem_of_lookup_1 in Hx as [i Hi], Hy as [j Hj].
  destruct (decide (i = j)) as [->|Hij]; [congruence|].
  destruct Hgood. exists (id component), registered.
  split; [by apply dict_get_Some_elem|right].
  exists j, i, y, x. by split_and!.
Qed.

(** X4.  The order of the registered configs comes before the preference
    among launchers: when some launcher class can launch under the first
    config registered for the component, the lookup returns that config,
    paired with the first launcher class of the list that can launch under
    it, whatever earlier launcher classes could do under later configs or
    without a config. *)
Theorem first_registered_config_wins
    L platform_configs self component A rest :
  init L platform_configs = Ok self →
  dict_get (id component) (default [] platform_configs) = Some (A :: rest) →
  (∃ cls, cls ∈ default [] L ∧ capable component (cls, Some A)) →
  ∃ i cls,
    find_component_launch_info self component = Ok (cls, Some A)
    ∧ default [] L !! i = Some cls
    ∧ ∀ j earlier, default [] L !! j = Some earlier → j < i →
                   ¬ capable component (earlier, Some A).
Proof.
  intros Hinit Hget (cls0 & Hcls0 & Hcapable0).
  apply init_ok_inv in Hinit as (-> & (classes & -> & Hne & Hall) & Hgood).
  set (self := {| _supported_launcher_classes := Some classes |}).
  rewrite (find_component_launch_info_refines self component classes)
    by done.
  unfold first_capable, launch_candidates, candidate_platform_configs.
  cbn [_platform_configs _supported_launcher_classes self].
  simpl in Hget, Hcls0 |- *. rewrite Hget. csimpl.
  rewrite list_bind_singleton.
  destruct (list_find (capable component) ((λ cls, (cls, Some A)) <$> classes))
    as [[i info]|] eqn:Hfind.
  - rewrite (list_find_app_l _ _ _ _ _ Hfind). simpl.
    rewrite list_find_fmap in Hfind.
    apply fmap_Some in Hfind as ([i' cls] & Hfind & [= -> ->]).
    apply list_find_Some in Hfind as (Hi & Hcapable & Hearlier).
    exists i', cls. split_and!; [done..|].
    intros j earlier Hj Hlt. by apply (Hearlier j earlier).
  - apply list_find_None in Hfind.
    apply (Forall_forall _ _) with (x := (cls0, Some A)) in Hfind; [done|].
    apply list_elem_of_fmap. eauto.
Qed.

(** X5.  A component without registered configs (its id is not a key of
    the map, or its list is empty, as when the runner was constructed
    without platform configs) is looked up among the launcher classes
    alone: the first class of the list that can launch without a config is
    returned with [None], and a [RuntimeError] is raised when there is
    none. *)
Theorem lookup_without_configs L platform_configs self component :
  init L platform_configs = Ok self →
  dict_get (id component) (default [] platform_configs) = None
  ∨ dict_get (id component) (default [] platform_configs) = Some [] →
  find_component_launch_info self component
  = match list_find (λ cls, capable component (cls, None)) (default [] L) with
    | Some (_, cls) => Ok (cls, None)
    | None => Raise (RuntimeError (no_launcher_message component))
    end.
Proof.
  intros Hinit Hget.
  apply init_ok_inv in Hinit as (-> & (classes & -> & Hne & Hall) & Hgood).
  set (self := {| _supported_launcher_classes := Some classes |}).
  rewrite (find_component_launch_info_refines self component classes)
    by done.
  unfold first_capable, launch_candidates, candidate_platform_configs.
  cbn [_platform_configs _supported_launcher_classes self].
  simpl in Hget |- *.
  assert (default [] (dict_get (id component) (default [] platform_configs))
          = []) as -> by (by destruct Hget as [-> | ->]).
  csimpl. rewrite app_nil_r, list_bind_singleton, list_find_fmap.
  by destruct (list_find _ classes) as [[??]|].
Qed.

(** X6.  The lookup reads the platform configs only at the component's own
    id: runners with the same launcher classes whose maps agree at that id
    return the same pair or raise the same error, whatever is registered
    for other components. *)
Theorem lookup_reads_own_configs self self' component :
  _supported_launcher_classes self = _supported_launcher_classes self' →
  dict_get (id component) (_platform_configs self)
  = dict_get (id component) (_platform_configs self') →
  find_component_launch_info self component
  = find_component_launch_info self' component.
Proof.
  intros Hclasses Hget.
  unfold find_component_launch_info, dict_contains, dict_getitem.
  by rewrite Hclasses, Hget.
Qed.

(** *** Which error the validations raise *)

Lemma flags_not_a_class classes repr :
  NotAClass repr ∈ classes →
  comprehension (λ cls, negb <$> issubclass cls) classes
  = Raise (TypeError "issubclass() arg 1 must be a class").
Proof.
  induction classes as [|cls classes IH]; intros Hin.
  { by apply elem_of_nil in Hin. }
  apply elem_of_cons in Hin as [<-|Hin]; simpl; [done|].
  rewrite IH by done. by destruct cls.
Qed.

Lemma flags_all_classes classes :
  (∀ repr, NotAClass repr ∉ classes) →
  comprehension (λ cls, negb <$> issubclass cls) classes
  = Ok ((λ cls, bool_decide (¬ is_launcher cls)) <$> classes).
Proof.
  induction classes as [|cls classes IH]; intros Hclasses; [done|].
  simpl. rewrite IH by (intros repr ?; eapply Hclasses; by right).
  destruct cls as [l|name|repr]; simpl; [done..|].
  destruct (Hclasses repr). left.
Qed.

(** X7.  With an entry that is not a class at all, the launcher validation
    fails inside [issubclass], whose [TypeError] is raised while the list
    of tests is built, even when another entry is a class outside the
    launcher hierarchy; the [TypeError] of the runner itself is raised
    when every entry is a class and some class is not a launcher
    subclass. *)
Theorem launcher_validation_type_errors self classes :
  _supported_launcher_classes self = Some classes →
  ((∃ repr, NotAClass repr ∈ classes) →
   _validate_supported_launcher_classes self
   = Raise (TypeError "issubclass() arg 1 must be a class"))
  ∧ ((∀ repr, NotAClass repr ∉ classes) →
     (∃ name, OtherClass name ∈ classes) →
     _validate_supported_launcher_classes self
     = Raise (TypeError
                ("Each item in supported_launcher_classes must be type of "
                 +:+ "base_component_launcher.BaseComponentLauncher."))).
Proof.
  intros Hclasses. unfold _validate_supported_launcher_classes.
  rewrite Hclasses. split.
  - intros [repr Hin]. destruct classes as [|cls classes].
    { by apply elem_of_nil in Hin. }
    by rewrite (flags_not_a_class _ repr Hin).
  - intros Hall [name Hin]. destruct classes as [|cls classes].
    { by apply elem_of_nil in Hin. }
    rewrite flags_all_classes by done. cbn [mbind result_bind].
    replace (existsb _ _) with true; [done|].
    symmetry. apply existsb_exists. exists true. split; [|done].
    apply list_elem_of_In, list_elem_of_fmap. exists (OtherClass name).
    split; [|done]. by rewrite bool_decide_eq_true_2.
Qed.

Lemma multiple_configs_format (component_id : string) :
  py_format ("Component " +:+ dquote +:+ "%s" +:+ dquote
             +:+ " has multiple platfrom configs with the same type.")
            [component_id]
  = Ok ("Component " +:+ dquote +:+ component_id +:+ dquote
        +:+ " has multiple platfrom configs with the same type.").
Proof. reflexivity. Qed.

(** X8.  The validation of the platform configs stops at the first item,
    in the order of the map, that has an empty id or two configs of one
    type: for an empty id the [ValueError] says that the component id
    cannot be empty, also when that item has configs of one type, and
    otherwise it quotes the id of that item. *)
Theorem platform_configs_first_offender self good k cfgs rest :
  _platform_configs self = good ++ (k, cfgs) :: rest →
  Forall (λ item, item.1 ≠ "" ∧ ¬ same_type_twice py_type item.2) good →
  (k = "" →
   _validate_platform_configs py_type self
   = Raise (ValueError "component id cannot be empty in platform_configs."))
  ∧ (k ≠ "" → same_type_twice py_type cfgs →
     _validate_platform_configs py_type self
     = Raise (ValueError
                ("Component " +:+ dquote +:+ k +:+ dquote
                 +:+ " has multiple platfrom configs with the same type."))).
Proof.
  intros HM Hgood. unfold _validate_platform_configs. rewrite HM. clear HM.
  induction Hgood as [|[k' cfgs'] good [Hk' Hcfgs'] _ IH].
  - cbn [app for_in]. split.
    + intros ->. reflexivity.
    + intros Hk Hdup. destruct (String.eqb_spec k "") as [|_]; [done|].
      apply same_type_twice_dup, size_list_to_set_lt in Hdup.
      rewrite length_fmap in Hdup.
      destruct (Nat.ltb_spec
                  (size (list_to_set (py_type <$> cfgs) : gset TypeId))
                  (length cfgs)) as [_|?]; [|lia].
      by rewrite multiple_configs_format.
  - cbn [app for_in fst snd] in *.
    destruct (String.eqb_spec k' "") as [|_]; [done|].
    destruct (Nat.ltb_spec
                (size (list_to_set (py_type <$> cfgs') : gset TypeId))
                (length cfgs')) as [Hlt|_].
    { destruct Hcfgs'. apply same_type_twice_dup, size_list_to_set_lt.
      by rewrite length_fmap. }
    destruct IH as [IHempty IHdup]. cbn [mbind result_bind]. split.
    + intros Hk. specialize (IHempty Hk).
      by destruct (for_in (good ++ _) _) as [[[]|]|].
    + intros Hk Hdup. specialize (IHdup Hk Hdup).
      by destruct (for_in (good ++ _) _) as [[[]|]|].
Qed.

End properties.

Import tfx_runner_example.

Lemma launch_info_sound_witness :
  __init__ config_type (Some launchers) (Some configs) = Ok runner
  ∧ find_component_launch_info runner pusher
    = Ok (LauncherSubclass DockerComponentLauncher, None)
  ∧ LauncherSubclass DockerComponentLauncher ∈ launchers.
Proof.
  assert (__init__ config_type (Some launchers) (Some configs) = Ok runner)
    as Hinit by (vm_compute; reflexivity).
  assert (find_component_launch_info runner pusher
          = Ok (LauncherSubclass DockerComponentLauncher, None))
    as Hfind by (vm_compute; reflexivity).
  split; [exact Hinit|]. split; [exact Hfind|].
  exact (proj1 (launch_info_sound config_type _ _ _ _ _ _ Hinit Hfind)).
Defined.

Lemma launch_config_unique_of_type_witness :
  let transform := {| id := "Trainer"; component_id := "Transform";
                      executor_spec := ExecutorContainerSpec "gcr.io/tfx/transform" |} in
  let docker := DockerComponentConfig "unix://var/run/docker.sock" in
  __init__ config_type (Some launchers) (Some configs) = Ok runner
  ∧ find_component_launch_info runner transform
    = Ok (LauncherSubclass DockerComponentLauncher, Some docker)
  ∧ dict_get "Trainer" configs = Some trainer_configs
  ∧ docker ∈ trainer_configs
  ∧ docker = docker.
Proof.
  intros transform docker.
  assert (__init__ config_type (Some launchers) (Some configs) = Ok runner)
    as Hinit by (vm_compute; reflexivity).
  assert (find_component_launch_info runner transform
          = Ok (LauncherSubclass DockerComponentLauncher, Some docker))
    as Hfind by (vm_compute; reflexivity).
  assert (dict_get "Trainer" configs = Some trainer_configs)
    as Hget by (vm_compute; reflexivity).
  assert (docker ∈ trainer_configs) as Hin by left.
  split_and!; [exact Hinit|exact Hfind|exact Hget|exact Hin|].
  exact (launch_config_unique_of_type config_type _ _ _ transform _ _ _ _
           Hinit Hfind Hget Hin eq_refl).
Defined.

Lemma first_registered_config_wins_witness :
  let transform := {| id := "Trainer"; component_id := "Transform";
                      executor_spec := ExecutorContainerSpec "gcr.io/tfx/transform" |} in
  let docker := DockerComponentConfig "unix://var/run/docker.sock" in
  __init__ config_type (Some launchers) (Some configs) = Ok runner
  ∧ ∃ i cls,
      find_component_launch_info runner transform = Ok (cls, Some docker)
      ∧ launchers !! i = Some cls.
Proof.
  intros transform docker.
  assert (__init__ config_type (Some launchers) (Some configs) = Ok runner)
    as Hinit by (vm_compute; reflexivity).
  split; [exact Hinit|].
  destruct (first_registered_config_wins config_type _ _ _ transform docker
              [KubernetesComponentConfig "pipeline-runner"] Hinit)
    as (i & cls & Hfind & Hi & _).
  - vm_compute. reflexivity.
  - exists (LauncherSubclass DockerComponentLauncher).
    split; [right; right; left|vm_compute; reflexivity].
  - exists i, cls. split; [exact Hfind|exact Hi].
Defined.

Lemma lookup_without_configs_witness :
  __init__ config_type (Some launchers) (Some configs) = Ok runner
  ∧ dict_get "Pusher" configs = None
  ∧ find_component_launch_info runner pusher
    = Ok (LauncherSubclass DockerComponentLauncher, None).
Proof.
  assert (__init__ config_type (Some launchers) (Some configs) = Ok runner)
    as Hinit by (vm_compute; reflexivity).
  assert (dict_get "Pusher" configs = None)
    as Hget by (vm_compute; reflexivity).
  split; [exact Hinit|]. split; [exact Hget|].
  rewrite (lookup_without_configs config_type _ _ _ pusher Hinit
             (or_introl Hget)).
  vm_compute. reflexivity.
Defined.

Lemma lookup_reads_own_configs_witness :
  let crowded := {|
    _supported_launcher_classes := Some launchers;
    _platform_configs :=
      ("Evaluator", [KubernetesComponentConfig "evaluator"]) :: configs
  |} in
  dict_get "Trainer" (_platform_configs runner)
  = dict_get "Trainer" (_platform_configs crowded)
  ∧ find_component_launch_info runner trainer
    = find_component_launch_info crowded trainer.
Proof.
  intros crowded.
  assert (dict_get "Trainer" (_platform_configs runner)
          = dict_get "Trainer" (_platform_configs crowded))
    as Hget by (vm_compute; reflexivity).
  split; [exact Hget|].
  exact (lookup_reads_own_configs runner crowded trainer eq_refl Hget).
Defined.

Lemma launcher_validation_type_errors_witness :
  let classes : list (@pyobject ExecutorSpec BasePlatformConfig) :=
    [OtherClass "object"; NotAClass "42"] in
  _validate_supported_launcher_classes
    {| _supported_launcher_classes := Some classes; _platform_configs := [] |}
  = Raise (TypeError "issubclass() arg 1 must be a class").
Proof.
  intros classes.
  apply (proj1 (launcher_validation_type_errors
                  {| _supported_launcher_classes := Some classes;
                     _platform_configs := [] |} classes eq_refl)).
  exists "42". right. left.
Defined.

Lemma platform_configs_first_offender_witness :
  let duplicated := [DockerComponentConfig "a"; DockerComponentConfig "b"] in
  let self := {|
    _supported_launcher_classes := Some launchers;
    _platform_configs :=
      [("Trainer", [DockerComponentConfig "a"]); ("", duplicated);
       ("Pusher", duplicated)]
  |} in
  _validate_platform_configs config_type self
  = Raise (ValueError "component id cannot be empty in platform_configs.").
Proof.
  intros duplicated self.
  apply (proj1 (platform_configs_first_offender config_type self
                  [("Trainer", [DockerComponentConfig "a"])] "" duplicated
                  [("Pusher", duplicated)] eq_refl
                  ltac:(constructor; [|constructor]; split;
                        [discriminate|];
                        intros (i & j & a & b & Hij & Ha & Hb & _);
                        destruct i as [|i], j as [|j];
                          [lia|discriminate Hb|discriminate Ha
                          |discriminate Ha]))).
  reflexivity.
Defined.

End tfx_runner_properties.

(** ** The build spec: what a construction reads, writes and prints *)

Module buildspec_properties.
Import buildspec buildspec_facts.

Lemma append_nil_r (s : string) : s +:+ "" = s.
Proof.
  induction s as [|c s IH]; [reflexivity|].
  change (String c (s +:+ "") = String c s). by rewrite IH.
Qed.

Lemma reading_message (filename : string) :
  py_format "Reading build spec from %s" [filename]
  = Ok ("Reading build spec from " +:+ filename).
Proof. simpl. by rewrite append_nil_r. Qed.

Section properties.
Context {Content : Type}.
Context (yaml_dump : pyvalue → Content).
Context (yaml_safe_load : Content → result pyvalue).
Context (open_w_error : string → option exn).
Context (SKAFFOLD_API_VERSION : string).

Abbreviation World' := (@World Content).
Abbreviation init :=
  (__init__ yaml_dump yaml_safe_load open_w_error SKAFFOLD_API_VERSION).

Implicit Types (w : World') (content : Content) (doc : pyvalue).
Implicit Types (target_image : option string).

(** The outcome of a construction over an existing file, case by case. *)
Lemma load_cases filename target_image build_context dockerfile_name
    w content :
  files w !! filename = Some content →
  let r := init filename target_image build_context dockerfile_name w in
  let this workspace parsed :=
    {| buildspec.filename := filename;
       buildspec.build_context := workspace;
       buildspec.target_image := target_image;
       _buildspec := parsed |} in
  world r.2
  = {| files := files w;
       console := console w ++ ["Reading build spec from " +:+ filename] |}
  ∧ ((∃ e, r.1 = Raise e
           ∧ ((target_image ≠ None
               ∧ e = TypeError "not enough arguments for format string")
              ∨ yaml_safe_load content = Raise e)
           ∧ self r.2 = this (PyStr build_context) None)
     ∨ (∃ e doc, r.1 = Raise e ∧ target_image = None
                 ∧ yaml_safe_load content = Ok doc
                 ∧ self r.2 = this (PyStr build_context) (Some doc))
     ∨ (∃ doc workspace, r.1 = Ok () ∧ target_image = None
                         ∧ yaml_safe_load content = Ok doc
                         ∧ self r.2 = this workspace (Some doc))).
Proof.
  intros Hfile r this. subst r this.
  destruct target_image as [image|].
  { destruct (load_with_target_image yaml_dump yaml_safe_load open_w_error
                SKAFFOLD_API_VERSION filename image build_context
                dockerfile_name w content Hfile) as (message & Hmessage & ->).
    rewrite reading_message in Hmessage. injection Hmessage as <-.
    cbn [fst snd world self]. split; [done|]. left. eexists.
    split_and!; [done| |done]. by left. }
  destruct (yaml_safe_load content) as [doc|e] eqn:Hload.
  - destruct (load_without_target_image yaml_dump yaml_safe_load open_w_error
                SKAFFOLD_API_VERSION filename build_context dockerfile_name
                w content doc Hfile Hload) as (message & Hmessage & ->).
    rewrite reading_message in Hmessage. injection Hmessage as <-.
    destruct (getpath doc _) as [artifacts|e];
      [|cbn [fst snd world self]; split; [done|]; right; left;
        by eexists _, _].
    destruct (len artifacts) as [count|e];
      [|cbn [fst snd world self]; split; [done|]; right; left;
        by eexists _, _].
    case_decide;
      [|cbn [fst snd world self]; split; [done|]; right; left;
        by eexists _, _].
    destruct (getpath artifacts _) as [workspace|e];
      cbn [fst snd world self]; (split; [done|]); right;
      [right|left]; by eexists _, _.
  - unfold __init__, _read_existing_build_spec, os_path_exists, get_self,
      open_r, click_echo, lift, mbind, M_bind, mret, M_ret.
    cbn [self world buildspec.filename buildspec.target_image files console].
    rewrite bool_decide_eq_true_2 by eauto.
    cbn [self world buildspec.filename buildspec.target_image files console].
    rewrite Hfile, reading_message.
    cbn [self world buildspec.filename buildspec.target_image files console].
    rewrite Hload. cbn [fst snd world self]. split; [done|]. left.
    eexists. split_and!; [done| |done]. by right.
Qed.

(** X9.  No construction changes or removes a file that exists: whatever
    the arguments and the outcome, every path that held a file holds the
    same content afterwards.  Only the generating path writes, and it
    writes at a path that held no file. *)
Theorem existing_files_untouched
    filename target_image build_context dockerfile_name w path content :
  files w !! path = Some content →
  files (world (__init__ yaml_dump yaml_safe_load
                         open_w_error SKAFFOLD_API_VERSION
                         filename target_image build_context dockerfile_name
                         w).2)
    !! path = Some content.
Proof.
  intros Hpath. destruct (files w !! filename) as [existing|] eqn:Hfile.
  - destruct (load_cases filename target_image build_context dockerfile_name
                w existing Hfile) as [-> _]. done.
  - destruct target_image as [image|].
    + destruct (open_w_error filename) as [e|] eqn:Hopen.
      * by rewrite (generate_default_fails yaml_dump yaml_safe_load
                      open_w_error SKAFFOLD_API_VERSION _ _ _ _ _ e).
      * rewrite (generate_default yaml_dump yaml_safe_load open_w_error
                   SKAFFOLD_API_VERSION) by done.
        cbn [snd world files]. rewrite lookup_insert_ne; [done|congruence].
    + by rewrite (no_file_no_target_image yaml_dump yaml_safe_load open_w_error
                    SKAFFOLD_API_VERSION).
Qed.

(** X10.  Over an existing file, a construction that passes a target
    image raises the [TypeError] of the [%] operator before the file is
    parsed: [_buildspec] is not set, [build_context] is still the
    argument, and only the line that announces the reading has been
    printed. *)
Theorem load_with_target_image_raises
    filename image build_context dockerfile_name w content :
  files w !! filename = Some content →
  let r := __init__ yaml_dump yaml_safe_load open_w_error SKAFFOLD_API_VERSION
                    filename (Some image) build_context dockerfile_name w in
  r.1 = Raise (TypeError "not enough arguments for format string")
  ∧ _buildspec (self r.2) = None
  ∧ buildspec.build_context (self r.2) = PyStr build_context
  ∧ console (world r.2)
    = console w ++ ["Reading build spec from " +:+ filename].
Proof.
  intros Hfile r. subst r.
  destruct (load_with_target_image yaml_dump yaml_safe_load open_w_error
              SKAFFOLD_API_VERSION filename image build_context
              dockerfile_name w content Hfile) as (message & Hmessage & ->).
  rewrite reading_message in Hmessage. injection Hmessage as <-.
  by split_and!.
Qed.

(** X11.  Without a target image, loading a file whose [build.artifacts]
    is a list raises the [RuntimeError] about multiple artifacts exactly
    when the list does not have one entry, the empty list included; with
    one entry the outcome is that of reading its [workspace], which
    becomes the build context. *)
Theorem plain_load_checks_artifact_count
    filename build_context dockerfile_name w content doc artifacts :
  files w !! filename = Some content →
  yaml_safe_load content = Ok doc →
  getpath doc [KStr "build"; KStr "artifacts"] = Ok (PyList artifacts) →
  let r := init filename None build_context dockerfile_name w in
  (r.1 = Raise (RuntimeError
                  ("The build spec contains multiple artifacts however"
                   +:+ "only one is supported."))
   ↔ length artifacts ≠ 1)
  ∧ (∀ artifact,
       artifacts = [artifact] →
       r.1 = getitem artifact (KStr "workspace") ≫= (λ _, Ok ())
       ∧ ∀ workspace,
           getitem artifact (KStr "workspace") = Ok workspace →
           buildspec.build_context (self r.2) = workspace).
Proof.
  intros Hfile Hload Hartifacts r. subst r.
  destruct (load_without_target_image yaml_dump yaml_safe_load open_w_error
              SKAFFOLD_API_VERSION filename build_context dockerfile_name
              w content doc Hfile Hload) as (message & _ & ->).
  rewrite Hartifacts. cbn [len]. split.
  - case_decide as Hcount; [|done].
    destruct artifacts as [|artifact [|??]]; try done.
    unfold getpath. cbn [foldl]. unfold mbind, result_bind. simpl.
    destruct (getitem artifact (KStr "workspace")) as [?|e] eqn:Hworkspace;
      cbn [fst]; (split; [|done]); [done|].
    intros [= ->]. by destruct (getitem_not_runtime_error _ _ _ Hworkspace).
  - intros artifact ->. rewrite decide_True by done.
    unfold getpath. cbn [foldl]. unfold mbind, result_bind. simpl.
    destruct (getitem artifact (KStr "workspace")) as [?|e];
      cbn [fst snd self buildspec.build_context]; (split; [done|]).
    + by intros ? [= <-].
    + by intros ? [=].
Qed.

(** X12.  Round trip through the file: after a construction has generated
    the default build spec at a path without a file, where
    [open(filename, 'w')] can create one, a construction from that path
    without a target image returns, takes the build context of the first
    construction whatever build context and dockerfile name it is given,
    holds in [_buildspec] a document equal to the generated one and
    leaves the file as it is; provided the YAML library reads back a
    document equal to the one it dumped, in whatever order it writes the
    keys of a mapping. *)
Theorem plain_reload_round_trip
    filename image build_context dockerfile_name
    build_context' dockerfile_name' w :
  files w !! filename = None →
  open_w_error filename = None →
  let first := init filename (Some image) build_context dockerfile_name w in
  (∀ doc, _buildspec (self first.2) = Some doc →
          ∃ doc', yaml_safe_load (yaml_dump doc) = Ok doc'
                  ∧ doc_eqb doc doc' = true) →
  let second :=
    init filename None build_context' dockerfile_name' (world first.2) in
  first.1 = Ok () ∧ second.1 = Ok ()
  ∧ buildspec.build_context (self second.2) = PyStr build_context
  ∧ (∃ doc doc',
       _buildspec (self first.2) = Some doc
       ∧ _buildspec (self second.2) = Some doc'
       ∧ doc_eqb doc doc' = true)
  ∧ files (world second.2) = files (world first.2).
Proof.
  intros Hfile Hopen first Hcodec second.
  exact (generate_then_reload yaml_dump yaml_safe_load open_w_error
           SKAFFOLD_API_VERSION filename image build_context dockerfile_name
           build_context' dockerfile_name' w Hfile Hopen Hcodec).
Qed.

(** X13.  A construction over an existing file that raises leaves
    [build_context] as the argument; without a target image [_buildspec]
    holds the parsed document as soon as the file parses, also when the
    load then fails, and is not set when the YAML library raises. *)
Theorem failed_load_partial_state
    filename target_image build_context dockerfile_name w content :
  files w !! filename = Some content →
  let r := init filename target_image build_context dockerfile_name w in
  (r.1 ≠ Ok () →
   buildspec.build_context (self r.2) = PyStr build_context)
  ∧ (target_image = None →
     match yaml_safe_load content with
     | Ok doc => _buildspec (self r.2) = Some doc
     | Raise e => r.1 = Raise e ∧ _buildspec (self r.2) = None
     end).
Proof.
  intros Hfile r.
  destruct (load_cases filename target_image build_context dockerfile_name
              w content Hfile) as [_ Hcases]. fold r in Hcases.
  destruct Hcases as [(e & Hr & He & Hself)
                     |[(e & doc & Hr & Hti & Hload & Hself)
                      |(doc & workspace & Hr & Hti & Hload & Hself)]];
    rewrite Hself, Hr; cbn [buildspec.build_context _buildspec].
  - split; [done|]. intros ->.
    destruct He as [[? _]|Hload]; [done|]. by rewrite Hload.
  - split; [done|]. intros _. by rewrite Hload.
  - split; [done|]. intros _. by rewrite Hload.
Qed.

(** X14.  A file that lacks what the load subscripts: an empty document
    ([None]) raises the [TypeError] of subscripting it; a mapping without
    [build], a [build] without [artifacts] and a single artifact without
    [workspace] raise the [KeyError] of the missing key. *)
Theorem load_missing_keys
    filename build_context dockerfile_name w content doc :
  files w !! filename = Some content →
  yaml_safe_load content = Ok doc →
  let r := init filename None build_context dockerfile_name w in
  (doc = PyNone →
   r.1 = Raise (TypeError "'NoneType' object is not subscriptable"))
  ∧ (∀ items, doc = PyDict items →
              dict_get (KStr "build") items = None →
              r.1 = Raise (KeyError "'build'"))
  ∧ (∀ items, getitem doc (KStr "build") = Ok (PyDict items) →
              dict_get (KStr "artifacts") items = None →
              r.1 = Raise (KeyError "'artifacts'"))
  ∧ (∀ items,
       getpath doc [KStr "build"; KStr "artifacts"] = Ok (PyList [PyDict items]) →
       dict_get (KStr "workspace") items = None →
       r.1 = Raise (KeyError "'workspace'")).
Proof.
  intros Hfile Hload r. subst r.
  destruct (load_without_target_image yaml_dump yaml_safe_load open_w_error
              SKAFFOLD_API_VERSION filename build_context dockerfile_name
              w content doc Hfile Hload) as (message & _ & ->).
  split_and!.
  - by intros ->.
  - intros items -> Hmissing. unfold getpath. cbn [foldl].
    unfold mbind, result_bind. cbn [getitem]. unfold dict_getitem.
    by rewrite Hmissing.
  - intros items Hbuild Hmissing. unfold getpath. cbn [foldl].
    unfold mbind, result_bind. rewrite Hbuild. cbn [getitem].
    unfold dict_getitem. by rewrite Hmissing.
  - intros items -> Hmissing. cbn [len length]. rewrite decide_True by done.
    unfold getpath. cbn [foldl]. unfold mbind, result_bind. simpl.
    unfold dict_getitem. by rewrite Hmissing.
Qed.

(** X15.  A construction over an existing file prints one line, which
    says that the build spec is read from the file; a construction at a
    path without a file prints nothing. *)
Theorem console_output
    filename target_image build_context dockerfile_name w :
  let r := __init__ yaml_dump yaml_safe_load open_w_error SKAFFOLD_API_VERSION
                    filename target_image build_context dockerfile_name w in
  (is_Some (files w !! filename) →
   console (world r.2)
   = console w ++ ["Reading build spec from " +:+ filename])
  ∧ (files w !! filename = None → console (world r.2) = console w).
Proof.
  intros r. subst r. split.
  - intros [content Hfile].
    by destruct (load_cases filename target_image build_context
                   dockerfile_name w content Hfile) as [-> _].
  - intros Hfile. destruct target_image as [image|].
    + destruct (open_w_error filename) as [e|] eqn:Hopen.
      * by rewrite (generate_default_fails yaml_dump yaml_safe_load
                      open_w_error SKAFFOLD_API_VERSION _ _ _ _ _ e).
      * by rewrite (generate_default yaml_dump yaml_safe_load open_w_error
                      SKAFFOLD_API_VERSION).
    + by rewrite (no_file_no_target_image yaml_dump yaml_safe_load
                    open_w_error SKAFFOLD_API_VERSION).
Qed.

(** X16.  Over an existing file and without a target image the build
    context and the dockerfile name passed to the constructor do not
    matter: the outcome, the world and [_buildspec] are the same for any
    two choices, and when the load returns the whole object is, its build
    context being the one of the file. *)
Theorem load_ignores_arguments
    filename build_context dockerfile_name build_context' dockerfile_name'
    w content :
  files w !! filename = Some content →
  let r := __init__ yaml_dump yaml_safe_load open_w_error SKAFFOLD_API_VERSION
                    filename None build_context dockerfile_name w in
  let r' := __init__ yaml_dump yaml_safe_load open_w_error SKAFFOLD_API_VERSION
                     filename None build_context' dockerfile_name' w in
  r.1 = r'.1 ∧ world r.2 = world r'.2
  ∧ _buildspec (self r.2) = _buildspec (self r'.2)
  ∧ (r.1 = Ok () → self r.2 = self r'.2).
Proof.
  intros Hfile r r'. subst r r'.
  destruct (yaml_safe_load content) as [doc|e] eqn:Hload.
  - destruct (load_without_target_image yaml_dump yaml_safe_load open_w_error
                SKAFFOLD_API_VERSION filename build_context dockerfile_name
                w content doc Hfile Hload) as (message & Hmessage & ->).
    destruct (load_without_target_image yaml_dump yaml_safe_load open_w_error
                SKAFFOLD_API_VERSION filename build_context' dockerfile_name'
                w content doc Hfile Hload) as (message' & Hmessage' & ->).
    rewrite Hmessage in Hmessage'. injection Hmessage' as <-.
    destruct (getpath doc _) as [artifacts|]; [|by split_and!].
    destruct (len artifacts) as [count|]; [|by split_and!].
    case_decide; [|by split_and!].
    by destruct (getpath artifacts _); split_and!.
  - destruct (load_cases filename None build_context dockerfile_name
                w content Hfile) as [Hworld _].
    destruct (load_cases filename None build_context' dockerfile_name'
                w content Hfile) as [Hworld' _].
    destruct (load_unreadable yaml_dump yaml_safe_load
                open_w_error SKAFFOLD_API_VERSION
                filename build_context dockerfile_name w content e Hfile Hload)
      as (message & Hr).
    destruct (load_unreadable yaml_dump yaml_safe_load
                open_w_error SKAFFOLD_API_VERSION
                filename build_context' dockerfile_name' w content e Hfile
                Hload) as (message' & Hr').
    split_and!.
    + by rewrite Hr, Hr'.
    + by rewrite Hworld, Hworld'.
    + by rewrite Hr, Hr'.
    + by rewrite Hr.
Qed.


End properties.

Import buildspec_example.

Lemma existing_files_untouched_witness :
  let doc := build_spec [artifact "gcr.io/project/image" "src"] in
  files one_artifact_disk !! "build.yaml" = Some doc
  ∧ files (world (BuildSpec "other.yaml" (Some "gcr.io/project/other") "lib"
                            "Dockerfile" one_artifact_disk).2)
      !! "build.yaml" = Some doc.
Proof.
  intros doc.
  assert (files one_artifact_disk !! "build.yaml" = Some doc) as Hfile
    by (vm_compute; reflexivity).
  split; [exact Hfile|].
  exact (existing_files_untouched yaml_dump yaml_safe_load open_w_error
           SKAFFOLD_API_VERSION "other.yaml" (Some "gcr.io/project/other")
           "lib" "Dockerfile" one_artifact_disk "build.yaml" doc Hfile).
Defined.

Lemma load_with_target_image_raises_witness :
  let doc := build_spec [artifact "gcr.io/project/image" "src"] in
  files one_artifact_disk !! "build.yaml" = Some doc
  ∧ (BuildSpec "build.yaml" (Some "gcr.io/project/image") "." "Dockerfile"
               one_artifact_disk).1
    = Raise (TypeError "not enough arguments for format string").
Proof.
  intros doc.
  assert (files one_artifact_disk !! "build.yaml" = Some doc) as Hfile
    by (vm_compute; reflexivity).
  split; [exact Hfile|].
  exact (proj1 (load_with_target_image_raises yaml_dump yaml_safe_load
                  open_w_error
                  SKAFFOLD_API_VERSION "build.yaml" "gcr.io/project/image"
                  "." "Dockerfile" one_artifact_disk doc Hfile)).
Defined.

Lemma plain_load_checks_artifact_count_witness :
  let artifacts := [artifact "gcr.io/project/image" "src";
                    artifact "gcr.io/project/other" "lib"] in
  files two_artifact_disk !! "build.yaml" = Some (build_spec artifacts)
  ∧ yaml_safe_load (build_spec artifacts) = Ok (build_spec artifacts)
  ∧ getpath (build_spec artifacts) [KStr "build"; KStr "artifacts"]
    = Ok (PyList artifacts)
  ∧ (BuildSpec "build.yaml" None "." "Dockerfile" two_artifact_disk).1
    = Raise (RuntimeError
               ("The build spec contains multiple artifacts however"
                +:+ "only one is supported.")).
Proof.
  intros artifacts.
  assert (files two_artifact_disk !! "build.yaml"
          = Some (build_spec artifacts)) as Hfile
    by (vm_compute; reflexivity).
  split_and!; [exact Hfile|reflexivity|reflexivity|].
  apply (proj1 (plain_load_checks_artifact_count yaml_dump yaml_safe_load
                  open_w_error
                  SKAFFOLD_API_VERSION "build.yaml" "." "Dockerfile"
                  two_artifact_disk _ _ artifacts Hfile eq_refl eq_refl)).
  discriminate.
Defined.

Lemma plain_reload_round_trip_witness :
  let construct :=
    __init__ yaml_dump_sorted yaml_safe_load open_w_error
             SKAFFOLD_API_VERSION in
  let first := construct "build.yaml" (Some "gcr.io/project/image") "src"
                         "Dockerfile" empty_disk in
  let second := construct "build.yaml" None "." "Dockerfile.dev"
                          (world first.2) in
  files empty_disk !! "build.yaml" = None
  ∧ open_w_error "build.yaml" = None
  ∧ (∀ doc, _buildspec (self first.2) = Some doc →
            ∃ doc', yaml_safe_load (yaml_dump_sorted doc) = Ok doc'
                    ∧ doc_eqb doc doc' = true ∧ doc' ≠ doc)
  ∧ second.1 = Ok ()
  ∧ buildspec.build_context (self second.2) = PyStr "src".
Proof.
  intros construct first second.
  assert (files empty_disk !! "build.yaml" = None) as Hfile by reflexivity.
  assert (open_w_error "build.yaml" = None) as Hopen by reflexivity.
  assert (∀ doc, _buildspec (self first.2) = Some doc →
                 ∃ doc', yaml_safe_load (yaml_dump_sorted doc) = Ok doc'
                         ∧ doc_eqb doc doc' = true ∧ doc' ≠ doc) as Hcodec.
  { intros doc Hdoc. vm_compute in Hdoc. injection Hdoc as <-.
    eexists. split; [reflexivity|]. split; [vm_compute; reflexivity|].
    vm_compute. discriminate. }
  split; [exact Hfile|]. split; [exact Hopen|]. split; [exact Hcodec|].
  destruct (plain_reload_round_trip yaml_dump_sorted yaml_safe_load
              open_w_error SKAFFOLD_API_VERSION "build.yaml"
              "gcr.io/project/image" "src" "Dockerfile" "." "Dockerfile.dev"
              empty_disk Hfile Hopen
              (λ doc Hdoc,
                 match Hcodec doc Hdoc with
                 | ex_intro _ doc' (conj Hload (conj Heq _)) =>
                     ex_intro _ doc' (conj Hload Heq)
                 end))
    as (_ & Hsecond & Hcontext & _).
  split; [exact Hsecond|exact Hcontext].
Defined.

Lemma failed_load_partial_state_witness :
  let artifacts := [artifact "gcr.io/project/image" "src";
                    artifact "gcr.io/project/other" "lib"] in
  let r := BuildSpec "build.yaml" None "." "Dockerfile" two_artifact_disk in
  files two_artifact_disk !! "build.yaml" = Some (build_spec artifacts)
  ∧ r.1 ≠ Ok ()
  ∧ buildspec.build_context (self r.2) = PyStr "."
  ∧ _buildspec (self r.2) = Some (build_spec artifacts).
Proof.
  intros artifacts r.
  assert (files two_artifact_disk !! "build.yaml"
          = Some (build_spec artifacts)) as Hfile
    by (vm_compute; reflexivity).
  assert (r.1 ≠ Ok ()) as Hr by (vm_compute; discriminate).
  destruct (failed_load_partial_state yaml_dump yaml_safe_load open_w_error
              SKAFFOLD_API_VERSION "build.yaml" None "." "Dockerfile"
              two_artifact_disk _ Hfile) as [Hcontext Hparsed].
  split_and!; [exact Hfile|exact Hr|exact (Hcontext Hr)|exact (Hparsed eq_refl)].
Defined.

Lemma load_missing_keys_witness :
  let disk : @World pyvalue :=
    {| files := {[ "build.yaml" := PyDict [(KStr "kind", PyStr "Config")] ]};
       console := [] |} in
  let blank : @World pyvalue :=
    {| files := {[ "build.yaml" := PyNone ]}; console := [] |} in
  files disk !! "build.yaml" = Some (PyDict [(KStr "kind", PyStr "Config")])
  ∧ (BuildSpec "build.yaml" None "." "Dockerfile" disk).1
    = Raise (KeyError "'build'")
  ∧ files blank !! "build.yaml" = Some PyNone
  ∧ (BuildSpec "build.yaml" None "." "Dockerfile" blank).1
    = Raise (TypeError "'NoneType' object is not subscriptable").
Proof.
  intros disk blank.
  assert (files disk !! "build.yaml"
          = Some (PyDict [(KStr "kind", PyStr "Config")])) as Hfile
    by (vm_compute; reflexivity).
  assert (files blank !! "build.yaml" = Some PyNone) as Hblank
    by (vm_compute; reflexivity).
  split; [exact Hfile|]. split; [|split; [exact Hblank|]].
  - exact (proj1 (proj2 (load_missing_keys yaml_dump yaml_safe_load
                           open_w_error SKAFFOLD_API_VERSION "build.yaml"
                           "." "Dockerfile" disk _ _ Hfile eq_refl))
             _ eq_refl eq_refl).
  - exact (proj1 (load_missing_keys yaml_dump yaml_safe_load open_w_error
                    SKAFFOLD_API_VERSION "build.yaml" "." "Dockerfile"
                    blank _ _ Hblank eq_refl) eq_refl).
Defined.

Lemma load_ignores_arguments_witness :
  let doc := build_spec [artifact "gcr.io/project/image" "src"] in
  files one_artifact_disk !! "build.yaml" = Some doc
  ∧ (BuildSpec "build.yaml" None "." "Dockerfile" one_artifact_disk).1
    = (BuildSpec "build.yaml" None "lib" "Dockerfile.dev" one_artifact_disk).1.
Proof.
  intros doc.
  assert (files one_artifact_disk !! "build.yaml" = Some doc) as Hfile
    by (vm_compute; reflexivity).
  split; [exact Hfile|].
  exact (proj1 (load_ignores_arguments yaml_dump yaml_safe_load open_w_error
                  SKAFFOLD_API_VERSION "build.yaml" "." "Dockerfile" "lib"
                  "Dockerfile.dev" one_artifact_disk doc Hfile)).
Defined.


End buildspec_properties.

(** ** The example component: default output channels *)

Module hello_component_properties.
Import hello_component hello_component_facts.

Lemma init_default_run input_data name next component next' :
  __init__ input_data None name next = (Ok component, next') →
  next' = S (S (S next))
  ∧ outputs (spec component) !! "output_data"
    = Some {| channel_oid := S (S next);
              type := Examples;
              artifacts := [
                {| artifact_oid := next; artifact_class := Examples;
                   split := "train" |};
                {| artifact_oid := S next; artifact_class := Examples;
                   split := "eval" |}] |}.
Proof.
  unfold __init__, lift, comprehensionM, new_Examples, as_channel, allocate,
    mbind, M_bind, mret, M_ret.
  cbn [artifact_class].
  destruct (HelloComponentSpec _ _ _) as [s|] eqn:Hspec; [|done].
  unfold BaseComponent__init__, mret, M_ret. intros [= <- <-].
  split; [done|]. by eapply spec_keeps_output_data.
Qed.

(** X18.  Components constructed one after the other without an output
    channel never share the default: each gets an output channel of its
    own identity, and no artifact of one channel is an artifact of the
    other.  (The channel and the artifacts are minted inside the
    constructor, by helpers modelled from the spec.) *)
Theorem default_output_channels_distinct
    input_data name input_data' name' next first next' second next'' :
  __init__ input_data None name next = (Ok first, next') →
  __init__ input_data' None name' next' = (Ok second, next'') →
  ∃ channel channel',
    outputs (spec first) !! "output_data" = Some channel
    ∧ outputs (spec second) !! "output_data" = Some channel'
    ∧ channel_oid channel ≠ channel_oid channel'
    ∧ ∀ a a', a ∈ artifacts channel → a' ∈ artifacts channel' →
              artifact_oid a ≠ artifact_oid a'.
Proof.
  intros [-> Hfirst]%init_default_run [-> Hsecond]%init_default_run.
  eexists _, _. split_and!; [exact Hfirst|exact Hsecond|simpl; lia|].
  intros a a' Ha Ha'. cbn [artifacts] in Ha, Ha'.
  repeat (apply elem_of_cons in Ha as [->|Ha]);
    repeat (apply elem_of_cons in Ha' as [->|Ha']);
    try (by apply elem_of_nil in Ha); try (by apply elem_of_nil in Ha');
    simpl; lia.
Qed.

Lemma default_output_channels_distinct_witness :
  let upstream := {|
    channel_oid := 1;
    type := Examples;
    artifacts := [{| artifact_oid := 0; artifact_class := Examples;
                     split := "train" |}]
  |} in
  ∃ first second,
    __init__ (Some upstream) None (Some "Hello") 2 = (Ok first, 5)
    ∧ __init__ (Some upstream) None (Some "World") 5 = (Ok second, 8)
    ∧ outputs (spec first) !! "output_data"
      ≠ outputs (spec second) !! "output_data".
Proof.
  intros upstream.
  destruct (__init__ (Some upstream) None (Some "Hello") 2)
    as [[first|e] n] eqn:Hfirst; [|vm_compute in Hfirst; discriminate Hfirst].
  destruct (__init__ (Some upstream) None (Some "World") 5)
    as [[second|e] n'] eqn:Hsecond;
    [|vm_compute in Hsecond; discriminate Hsecond].
  assert (n = 5) as -> by (vm_compute in Hfirst; congruence).
  assert (n' = 8) as -> by (vm_compute in Hsecond; congruence).
  exists first, second. split; [reflexivity|]. split; [reflexivity|].
  destruct (default_output_channels_distinct _ _ _ _ _ _ _ _ _
              Hfirst Hsecond) as (ch & ch' & -> & -> & Hoid & _).
  intros [= Heq]. apply Hoid. by rewrite Heq.
Defined.

End hello_component_properties.
